(** * Sensor readings service: storage, predicate builder, aggregates

    A shallow embedding of [app.py]: the write path (payload validation and
    insert), the two query-text builders, the statements the handlers send to
    the storage engine together with an interpreter for exactly that family
    of statements, the [Percentile] aggregate class, and the seven GET
    handlers. *)

From Stdlib Require Import ZArith QArith Qround String Ascii List Bool Lia.
From Stdlib Require Import DecimalString DecimalZ DecimalPos Permutation Sorted.
From stdpp Require Import gmap strings fin_maps.

Local Open Scope string_scope.
Local Open Scope Z_scope.
Local Open Scope list_scope.

(** ** Values *)

(** A value of a decoded JSON payload, as [json.loads] hands it to the
    validator.  [JCompound] stands for arrays and objects, which no rule of
    the write schema accepts.  JSON booleans are left out of the payload
    domain. *)
Inductive jvalue : Type :=
  | JNull
  | JInt (z : Z)
  | JReal (q : Q)
  | JStr (s : string)
  | JCompound.

(** A value in a result row of the storage engine (NULL, INTEGER, REAL,
    TEXT), which is also what ends up in the JSON response. *)
Inductive sqlv : Type :=
  | VNull
  | VInt (z : Z)
  | VReal (q : Q)
  | VText (s : string).

(** One row of the table
    [readings (device_uuid TEXT, type TEXT, value INTEGER, date_created INTEGER)].
    The handler binds the device id taken from the route (a string), the
    payload's [type] (a string or [None]), its [value] (an integer or [None])
    and an integer time; [None] is stored as NULL. *)
Record Row : Type := mkRow {
  device_uuid : string;
  type : option string;
  value : option Z;
  date_created : Z
}.

Definition DB : Type := list Row.

(** Body of a response: plain text, one JSON object built by
    [dict(zip(keys, row))], or a JSON array of such objects. *)
Inductive body : Type :=
  | BText (s : string)
  | BDict (d : list (string * sqlv))
  | BList (l : list (list (string * sqlv))).

Definition response : Type := (body * Z)%type.

(** ** Write path *)

Module Cerberus.

(** The rules of [write_schema]:
    [{"type": {'type': 'string'}, 'value': {'type': 'integer', 'min': 0, 'max': 100}}]. *)
Definition field_ok (k : string) (v : jvalue) : bool :=
  if String.eqb k "type" then
    match v with JStr _ => true | _ => false end
  else if String.eqb k "value" then
    match v with JInt z => (0 <=? z) && (z <=? 100) | _ => false end
  else false.

(** [Validator(write_schema).validate(post_data)]: every field of the document
    is checked against its rules; a field the schema does not name is an
    error (unknown fields are not allowed by default); no field is required;
    a null value is an error. *)
Definition validate (post_data : gmap string jvalue) : bool :=
  forallb (fun kv => field_ok (fst kv) (snd kv)) (map_to_list post_data).

End Cerberus.

(** [post_data.get('type')], bound as a statement parameter. *)
Definition get_type (post_data : gmap string jvalue) : option string :=
  match post_data !! "type" with Some (JStr s) => Some s | _ => None end.

(** [post_data.get('value')], bound as a statement parameter. *)
Definition get_value (post_data : gmap string jvalue) : option Z :=
  match post_data !! "value" with Some (JInt z) => Some z | _ => None end.

(** [post_data.get('date_created', int(time.time()))]; [now] is the clock. *)
Definition get_date_created (post_data : gmap string jvalue) (now : Z) : jvalue :=
  match post_data !! "date_created" with Some v => v | None => JInt now end.

(** The POST branch of [request_device_readings]: the new store and the
    response.  A payload that passed validation has no [date_created] field,
    so the bound time is the integer [now]; the other branch of the match
    below is unreachable and leaves the store alone. *)
Definition request_device_readings_post
    (db : DB) (device : string) (post_data : gmap string jvalue) (now : Z)
    : DB * response :=
  if negb (Cerberus.validate post_data) then (db, (BText "invalid input", 400))
  else
    let sensor_type := get_type post_data in
    let value := get_value post_data in
    match get_date_created post_data now with
    | JInt date_created =>
        (db ++ [mkRow device sensor_type value date_created],
         (BText "success", 201))
    | _ => (db, (BText "Internal Server Error", 500))
    end.

(** ** Query-text builders *)

(** [metric_query_builder(sensor_type, query_template, start, end)]: the
    clause text and the tuple of bound parameters. *)
Definition metric_query_builder
    (sensor_type : string) (query_template : string)
    (start end_ : option string) : string * list string :=
  let params := [sensor_type] in
  let '(params, query_template) :=
    match start with
    | Some s => (params ++ [s], String.append query_template "and date_created >= ?")
    | None => (params, query_template)
    end in
  let '(params, query_template) :=
    match end_ with
    | Some e => (params ++ [e], String.append query_template "and date_created <= ?")
    | None => (params, query_template)
    end in
  (query_template, params).

(** The nested [query_builder] of the listing handler: the sensor type is
    optional too. *)
Definition query_builder
    (sensor_type : option string) (query_template : string)
    (start end_ : option string) : string * list string :=
  let params := [] in
  let '(params, query_template) :=
    match sensor_type with
    | Some t => (params ++ [t], String.append query_template "and type = ?")
    | None => (params, query_template)
    end in
  let '(params, query_template) :=
    match start with
    | Some s => (params ++ [s], String.append query_template "and date_created >= ?")
    | None => (params, query_template)
    end in
  let '(params, query_template) :=
    match end_ with
    | Some e => (params ++ [e], String.append query_template "and date_created <= ?")
    | None => (params, query_template)
    end in
  (query_template, params).

(** ** Sorting and grouping helpers of the storage engine *)

Section Sorting.
Context {A : Type} (leb : A -> A -> bool).

Fixpoint insert_sorted (x : A) (l : list A) : list A :=
  match l with
  | [] => [x]
  | y :: l' => if leb x y then x :: l else y :: insert_sorted x l'
  end.

(** A stable sort: among elements that compare equal the input order is
    kept. *)
Definition sort_by (l : list A) : list A := fold_right insert_sorted [] l.
End Sorting.

(** Number of occurrences of [v] in [vs]. *)
Definition count_of `{EqDecision A} (v : A) (vs : list A) : nat :=
  length (List.filter (fun w => bool_decide (w = v)) vs).

(** Column order of the engine on nullable values: NULL sorts first. *)
Definition opt_leb {A : Type} (leb : A -> A -> bool) (a b : option A) : bool :=
  match a, b with
  | None, _ => true
  | Some _, None => false
  | Some x, Some y => leb x y
  end.

(** ** The Percentile aggregate *)

Module Numpy.

(** [np.nanpercentile(arr, p, interpolation='midpoint')] on a non-empty array
    of integers, following the library's algorithm in exact rational
    arithmetic: the array is ordered, the position [p/100 * (n-1)] is replaced
    by the mean of its floor and its ceiling, the two neighbours of that
    position (the upper one clipped to the last index) are blended with the
    fractional part as weight. *)
Definition midpoint (arr : list Z) (p : Z) : Q :=
  let ap := sort_by Z.leb arr in
  let Nx := Z.of_nat (length ap) in
  let indices := ((p # 100) * inject_Z (Nx - 1))%Q in
  let indices := ((1 # 2) * (inject_Z (Qfloor indices) + inject_Z (Qceiling indices)))%Q in
  let indices_below := Qfloor indices in
  let indices_above := Z.min (indices_below + 1) (Nx - 1) in
  let weights_above := (indices - inject_Z indices_below)%Q in
  let weights_below := (1 - weights_above)%Q in
  let x1 := (inject_Z (nth (Z.to_nat indices_below) ap 0%Z) * weights_below)%Q in
  let x2 := (inject_Z (nth (Z.to_nat indices_above) ap 0%Z) * weights_above)%Q in
  (x1 + x2)%Q.

(** The values the aggregate collected are Python objects: integers, or
    [None] for a NULL column.  [None] in the array, a percentile outside
    [0, 100] and the empty array give no number ([None] here: the first two
    raise, the last yields NaN). *)
Definition nanpercentile (arr : list (option Z)) (p : Z) : option Q :=
  match arr with
  | [] => None
  | _ =>
    if forallb (fun v => match v with Some _ => true | None => false end) arr
       && (0 <=? p) && (p <=? 100)
    then Some (midpoint (omap id arr) p)
    else None
  end.

End Numpy.

Module Percentile.

(** The instance state: [self.arr] and [self.percentile]; the latter starts
    as the empty string, which is no percentile ([None] here). *)
Record t : Type := mk { arr : list (option Z); percentile : option Z }.

Definition init : t := mk [] None.

Definition step (self : t) (value : option Z) (per : Z) : t :=
  mk (arr self ++ [value]) (Some per).

Definition finalize (self : t) : option Q :=
  match percentile self with
  | Some per => Numpy.nanpercentile (arr self) per
  | None => None
  end.

End Percentile.

(** How the engine drives a registered aggregate class over the values of a
    group: one instance, created at the first [step]; [finalize] at the end.
    When no row reached the aggregate there is no instance and the result is
    NULL.  [None] is an exception raised by [finalize]. *)
Definition run_percentile (vs : list (option Z)) (per : Z) : option sqlv :=
  match vs with
  | [] => Some VNull
  | _ =>
    match Percentile.finalize
            (fold_left (fun self v => Percentile.step self v per) vs Percentile.init) with
    | Some q => Some (VReal (Qred q))
    | None => None
    end
  end.

(** ** The storage engine on the statements of the service *)

(** Comparing the INTEGER column [date_created] with a bound text: the engine
    first tries to read the text as a number.  Recognised here are integer
    literals, an optional minus sign followed by decimal digits; any other
    text stays TEXT. *)
Definition numeric_affinity (text : string) : option Z :=
  option_map Z.of_int (NilZero.int_of_string text).

(** [date_created >= ?]; an integer is smaller than any text. *)
Definition ge_param (column : Z) (param : string) : bool :=
  match numeric_affinity param with
  | Some n => n <=? column
  | None => false
  end.

(** [date_created <= ?]. *)
Definition le_param (column : Z) (param : string) : bool :=
  match numeric_affinity param with
  | Some n => column <=? n
  | None => true
  end.

(** The three optional predicates; each holds one placeholder. *)
Inductive cond : Type := CType | CStart | CEnd.

(** What a statement selects. *)
Inductive selector : Type :=
  | SelStar
  | SelMax
  | SelMin
  | SelMean
  | SelPercentile (pers : list Z)
  | SelValue.

(** The statement heads of the handlers, up to and including their fixed
    predicates: what is selected and which predicates are already there. *)
Definition statement_heads : list (string * (selector * list cond)) :=
  [ ("select * from readings where device_uuid=?", (SelStar, []));
    ("select max(value) as value from readings where device_uuid=? and type=? ",
     (SelMax, [CType]));
    ("select min(value) as value from readings where device_uuid=? and type=? ",
     (SelMin, [CType]));
    ("select percentile(value, 50) as value from readings where device_uuid=? and type=? ",
     (SelPercentile [50], [CType]));
    ("select round(avg(value),2) as value from readings where device_uuid=? and type=? ",
     (SelMean, [CType]));
    ("select value as value from readings where device_uuid=? and type=? ",
     (SelValue, [CType]));
    ("select percentile(value, 25) as quartile_1, percentile(value, 75) as quartile_3 from readings where device_uuid=? and type=? ",
     (SelPercentile [25; 75], [CType])) ].

Definition summary_statement : string :=
  String.append "select device_uuid, count(*) as number_of_readings, max(value) as max_reading_value, "
 (String.append "round(avg(value),2) as mean_reading_value, percentile(value, 25) as  quartile_1_value,"
 (String.append "percentile(value, 75) as quartile_3_value, percentile(value, 50) as median_value, "
                "type as device_type from readings group by device_uuid, type order by count(device_uuid) desc")).

(** [strip_prefix p s] is the rest of [s] after its prefix [p]. *)
Fixpoint strip_prefix (p s : string) : option string :=
  match p with
  | EmptyString => Some s
  | String a p' =>
    match s with
    | String b s' => if Ascii.eqb a b then strip_prefix p' s' else None
    | EmptyString => None
    end
  end.

Fixpoint find_head (heads : list (string * (selector * list cond))) (query : string)
    : option (selector * list cond * string) :=
  match heads with
  | [] => None
  | (text, (sel, cs)) :: heads' =>
    match strip_prefix text query with
    | Some rest => Some (sel, cs, rest)
    | None => find_head heads' query
    end
  end.

(** The appended predicates, then nothing or the grouping of the mode
    handler; the flag tells which. *)
Fixpoint parse_conds (fuel : nat) (s : string) : option (list cond * bool) :=
  match fuel with
  | O => None
  | S fuel' =>
    if String.eqb s "" then Some ([], false)
    else if String.eqb s "group by value order by count(*) desc" then Some ([], true)
    else
      let more (c : cond) (rest : string) :=
        match parse_conds fuel' rest with
        | Some (cs, g) => Some (c :: cs, g)
        | None => None
        end in
      match strip_prefix "and type = ?" s with
      | Some rest => more CType rest
      | None =>
        match strip_prefix "and date_created >= ?" s with
        | Some rest => more CStart rest
        | None =>
          match strip_prefix "and date_created <= ?" s with
          | Some rest => more CEnd rest
          | None => None
          end
        end
      end
  end.

Definition holds (c : cond) (param : string) (r : Row) : bool :=
  match c with
  | CType => match type r with Some t => String.eqb t param | None => false end
  | CStart => ge_param (date_created r) param
  | CEnd => le_param (date_created r) param
  end.

(** The rows a [where] clause keeps: the device predicate, then the
    predicates paired with their parameters in order. *)
Definition select_rows (device : string) (cs : list cond) (ps : list string) (db : DB) : list Row :=
  List.filter
    (fun r => String.eqb (device_uuid r) device
              && forallb (fun cp => holds (fst cp) (snd cp) r) (combine cs ps))
    db.

Definition sqlv_of_text (t : option string) : sqlv :=
  match t with Some s => VText s | None => VNull end.

Definition sqlv_of_int (v : option Z) : sqlv :=
  match v with Some z => VInt z | None => VNull end.

Definition row_tuple (r : Row) : list sqlv :=
  [VText (device_uuid r); sqlv_of_text (type r); sqlv_of_int (value r); VInt (date_created r)].

(** [max(value)], [min(value)]: NULLs are skipped; NULL when nothing is left. *)
Definition sql_max (vs : list (option Z)) : sqlv :=
  match omap id vs with
  | [] => VNull
  | z :: zs => VInt (fold_left Z.max zs z)
  end.

Definition sql_min (vs : list (option Z)) : sqlv :=
  match omap id vs with
  | [] => VNull
  | z :: zs => VInt (fold_left Z.min zs z)
  end.

(** [round(x, 2)] in exact arithmetic, halves away from zero. *)
Definition round2 (x : Q) : Q :=
  if Qle_bool 0 x then Qred (Qfloor (x * 100 + (1 # 2)) # 100)
  else Qred (- (Qfloor (- x * 100 + (1 # 2)) # 100)).

(** [round(avg(value),2)]. *)
Definition sql_mean (vs : list (option Z)) : sqlv :=
  match omap id vs with
  | [] => VNull
  | zs => VReal (round2 (fold_right Z.add 0 zs # Pos.of_nat (length zs)))
  end.

Definition count_desc {A : Type} (a b : A * nat) : bool := (snd b <=? snd a)%nat.

(** [group by value order by count( * ) desc]: one row per distinct value,
    the groups in column order, then ordered by falling size. *)
Definition mode_rows (vs : list (option Z)) : list (list sqlv) :=
  map (fun g => [sqlv_of_int (fst g)])
      (sort_by count_desc
         (map (fun v => (v, count_of v vs)) (sort_by (opt_leb Z.leb) (remove_dups vs)))).

Definition key : Type := (string * option string)%type.

Definition key_of (r : Row) : key := (device_uuid r, type r).

Definition key_leb (a b : key) : bool :=
  String.ltb (fst a) (fst b)
  || (String.eqb (fst a) (fst b) && opt_leb String.leb (snd a) (snd b)).

Definition group_rows (k : key) (db : DB) : list Row :=
  List.filter (fun r => bool_decide (key_of r = k)) db.

(** The groups of [group by device_uuid, type] with their sizes, ordered by
    [order by count(device_uuid) desc]. *)
Definition summary_groups (db : DB) : list (key * nat) :=
  sort_by count_desc
    (map (fun k => (k, length (group_rows k db)))
         (sort_by key_leb (remove_dups (map key_of db)))).

(** The select list of the summary statement on one group. *)
Definition summary_row (db : DB) (g : key * nat) : option (list sqlv) :=
  let vs := map value (group_rows (fst g) db) in
  q1 ← run_percentile vs 25;
  q3 ← run_percentile vs 75;
  med ← run_percentile vs 50;
  Some [VText (fst (fst g)); VInt (Z.of_nat (snd g)); sql_max vs; sql_mean vs;
        q1; q3; med; sqlv_of_text (snd (fst g))].

(** Outcome of [cur.execute]: the result rows, or an exception of the
    engine. *)
Inductive outcome : Type :=
  | Rows (rs : list (list sqlv))
  | Raised.

Definition of_option (o : option (list (list sqlv))) : outcome :=
  match o with Some rs => Rows rs | None => Raised end.

(** [cur.execute(query, params)] on the statements of the service.  The
    first parameter is the device id; the others belong to the predicates in
    order, and their number has to fit.  A raising aggregate fails the
    statement.  Text outside the family is refused. *)
Definition execute (query : string) (params : list string) (db : DB) : outcome :=
  if String.eqb query summary_statement then
    match params with
    | [] => of_option (mapM (summary_row db) (summary_groups db))
    | _ => Raised
    end
  else
    match find_head statement_heads query with
    | None => Raised
    | Some (sel, fixed, rest) =>
      match parse_conds (S (String.length rest)) rest, params with
      | Some (cs, grouped), device :: ps =>
        if negb (length ps =? length (fixed ++ cs))%nat then Raised
        else
          let rows := select_rows device (fixed ++ cs) ps db in
          let vs := map value rows in
          match sel, grouped with
          | SelStar, false => Rows (map row_tuple rows)
          | SelMax, false => Rows [[sql_max vs]]
          | SelMin, false => Rows [[sql_min vs]]
          | SelMean, false => Rows [[sql_mean vs]]
          | SelPercentile pers, false =>
              of_option (row ← mapM (run_percentile vs) pers; Some [row])
          | SelValue, false => Rows (map (fun v => [sqlv_of_int v]) vs)
          | SelValue, true => Rows (mode_rows vs)
          | _, true => Raised
          end
      | _, _ => Raised
      end
    end.

(** ** GET handlers *)

(** [request.args.get(name) or None]: an empty argument counts as absent. *)
Definition or_none (arg : option string) : option string :=
  match arg with
  | Some s => if String.eqb s "" then None else Some s
  | None => None
  end.

Definition readings_keys : list string :=
  ["device_uuid"; "type"; "value"; "date_created"].

(** The GET branch of [request_device_readings]; [type_arg], [start_arg] and
    [end_arg] are [request.args.get] of [type], [start] and [end].  The
    statement is executed outside any [try]. *)
Definition request_device_readings_get
    (db : DB) (device : string) (type_arg start_arg end_arg : option string)
    : response :=
  let query_template := "select * from readings where device_uuid=?" in
  let sensor_type := or_none type_arg in
  let epoch_start := or_none start_arg in
  let epoch_end := or_none end_arg in
  let '(get_query, params) := query_builder sensor_type query_template epoch_start epoch_end in
  let params_tuple := device :: params in
  match execute get_query params_tuple db with
  | Rows rows => (BList (map (combine readings_keys) rows), 200)
  | Raised => (BText "Internal Server Error", 500)
  end.

(** The common tail of the metric handlers: [fetchone], the branch for no
    row ([none_body]; the quartiles handler has none and fails on [zip]), the
    object built from the row, and the [except Error] branch. *)
Definition metric_response
    (keys : list string) (none_body : option body) (error_text : string)
    (o : outcome) : response :=
  match o with
  | Raised => (BText error_text, 500)
  | Rows rs =>
    match head rs with
    | Some row => (BDict (combine keys row), 200)
    | None =>
      match none_body with
      | Some b => (b, 200)
      | None => (BText "Internal Server Error", 500)
      end
    end
  end.

Definition request_device_readings_max
    (db : DB) (device : string) (type_arg start_arg end_arg : option string)
    : response :=
  match type_arg with
  | None => (BText "sensor type is required", 400)
  | Some sensor_type =>
    let max_query_template :=
      "select max(value) as value from readings where device_uuid=? and type=? " in
    let '(max_query, params) :=
      metric_query_builder sensor_type max_query_template start_arg end_arg in
    let params_tuple := device :: params in
    metric_response ["value"] (Some (BDict [("value", VText "Null")]))
      "Error getting max value" (execute max_query params_tuple db)
  end.

Definition request_device_readings_min
    (db : DB) (device : string) (type_arg start_arg end_arg : option string)
    : response :=
  match type_arg with
  | None => (BText "sensor type is required", 400)
  | Some sensor_type =>
    let min_query_template :=
      "select min(value) as value from readings where device_uuid=? and type=? " in
    let '(min_query, params) :=
      metric_query_builder sensor_type min_query_template start_arg end_arg in
    let params_tuple := device :: params in
    metric_response ["value"] (Some (BDict [("value", VText "null")]))
      "Error getting min value" (execute min_query params_tuple db)
  end.

Definition request_device_readings_median
    (db : DB) (device : string) (type_arg start_arg end_arg : option string)
    : response :=
  match type_arg with
  | None => (BText "sensor type is required", 400)
  | Some sensor_type =>
    let median_query_template :=
      "select percentile(value, 50) as value from readings where device_uuid=? and type=? " in
    let '(median_query, params) :=
      metric_query_builder sensor_type median_query_template start_arg end_arg in
    let params_tuple := device :: params in
    metric_response ["value"] (Some (BDict [("value", VText "null")]))
      "Error getting max value" (execute median_query params_tuple db)
  end.

Definition request_device_readings_mean
    (db : DB) (device : string) (type_arg start_arg end_arg : option string)
    : response :=
  match type_arg with
  | None => (BText "sensor type is required", 400)
  | Some sensor_type =>
    let mean_query_template :=
      "select round(avg(value),2) as value from readings where device_uuid=? and type=? " in
    let '(mean_query, params) :=
      metric_query_builder sensor_type mean_query_template start_arg end_arg in
    let params_tuple := device :: params in
    metric_response ["value"] (Some (BDict [("value", VText "null")]))
      "Error getting mean value" (execute mean_query params_tuple db)
  end.

Definition request_device_readings_mode
    (db : DB) (device : string) (type_arg start_arg end_arg : option string)
    : response :=
  match type_arg with
  | None => (BText "sensor type is required", 400)
  | Some sensor_type =>
    let mode_query_template :=
      "select value as value from readings where device_uuid=? and type=? " in
    let '(mode_query, params) :=
      metric_query_builder sensor_type mode_query_template start_arg end_arg in
    let params_tuple := device :: params in
    metric_response ["value"] (Some (BDict [("value", VText "null")]))
      "Error getting mode value"
      (execute (String.append mode_query "group by value order by count(*) desc")
               params_tuple db)
  end.

Definition request_device_readings_quartiles
    (db : DB) (device : string) (type_arg start_arg end_arg : option string)
    : response :=
  match type_arg with
  | None => (BText "sensor type is required", 400)
  | Some sensor_type =>
    let quartile_query_template :=
      String.append
        "select percentile(value, 25) as quartile_1, percentile(value, 75) as quartile_3 from "
        "readings where device_uuid=? and type=? " in
    let '(quartile_query, params) :=
      metric_query_builder sensor_type quartile_query_template start_arg end_arg in
    let params_tuple := device :: params in
    metric_response ["quartile_1"; "quartile_3"] None
      "Error getting max value" (execute quartile_query params_tuple db)
  end.

Definition summary_keys : list string :=
  ["device_uuid"; "number_of_readings"; "max_reading_value"; "mean_reading_value";
   "quartile_1_value"; "quartile_3_value"; "median_value"; "device_type"].

Definition request_device_summary (db : DB) : response :=
  match execute summary_statement [] db with
  | Rows rows => (BList (map (combine summary_keys) rows), 200)
  | Raised => (BText "Error getting max value", 500)
  end.

(** ** The fixture of the test suite *)

Definition fixture (t0 t1 t2 : Z) : DB :=
  [ mkRow "test_device" (Some "temperature") (Some 22) t0;
    mkRow "test_device" (Some "temperature") (Some 50) t1;
    mkRow "test_device" (Some "humidity") (Some 50) t1;
    mkRow "test_device" (Some "temperature") (Some 100) t2;
    mkRow "other_uuid" (Some "temperature") (Some 22) t2 ].

Definition text_of_int (z : Z) : string := NilZero.string_of_int (Z.to_int z).


(** ** Reference predicates used in the statements below *)

(** The payload [{"type": sensor_type, "value": v}]. *)
Definition reading_payload (sensor_type : string) (v : Z) : gmap string jvalue :=
  <["type" := JStr sensor_type]> (<["value" := JInt v]> ∅).

(** The same payload with an explicit [date_created]. *)
Definition timed_payload (sensor_type : string) (v created : Z) : gmap string jvalue :=
  <["date_created" := JInt created]> (reading_payload sensor_type v).

Definition type_ok (sensor_type : option string) (r : Row) : bool :=
  match sensor_type with Some t => holds CType t r | None => true end.

Definition start_ok (start : option string) (r : Row) : bool :=
  match start with Some s => ge_param (date_created r) s | None => true end.

Definition end_ok (end_ : option string) (r : Row) : bool :=
  match end_ with Some e => le_param (date_created r) e | None => true end.

(** The stored rows a filter (device, optional type, optional bounds, all
    as bound text) keeps, in storage order. *)
Definition matching (db : DB) (device : string) (sensor_type start end_ : option string)
    : list Row :=
  List.filter
    (fun r => String.eqb (device_uuid r) device
              && (type_ok sensor_type r && (start_ok start r && end_ok end_ r)))
    db.

(** The JSON object of one stored reading. *)
Definition reading_object (r : Row) : list (string * sqlv) :=
  combine readings_keys (row_tuple r).

(** The parameters that are present, in order. *)
Definition present (arg : option string) : list string :=
  match arg with Some a => [a] | None => [] end.


(** [percentile(values, p)]: the [Percentile] aggregate stepped over
    [values] with percentile [p], then finalized. *)
Definition percentile (values : list Z) (p : Z) : option Q :=
  Percentile.finalize
    (fold_left (fun self v => Percentile.step self (Some v) p) values Percentile.init).

(** The midpoint rule in the words of the specification: order the values
    into [a[0..n-1]], take [index = p/100 * (n-1)]; when [index] is whole
    the result is [a[index]], otherwise the mean of [a[floor index]] and
    [a[ceil index]]. *)
Definition percentile_reference (values : list Z) (p : Z) : Q :=
  let a := sort_by Z.leb values in
  let n := Z.of_nat (length a) in
  let index := ((p # 100) * inject_Z (n - 1))%Q in
  if Qeq_bool index (inject_Z (Qfloor index))
  then inject_Z (nth (Z.to_nat (Qfloor index)) a 0%Z)
  else ((inject_Z (nth (Z.to_nat (Qfloor index)) a 0%Z)
         + inject_Z (nth (Z.to_nat (Qceiling index)) a 0%Z)) / 2)%Q.


(** The largest element of a non-empty list. *)
Definition maximum (zs : list Z) : Z := fold_right Z.max (hd 0 zs) zs.

(** The mean of a list of integers, rounded to two decimals. *)
Definition mean2 (zs : list Z) : Q :=
  round2 (fold_right Z.add 0 zs # Pos.of_nat (length zs)).

(** The readings of the group with key [k], and their integer values. *)
Definition group_values (k : key) (db : DB) : list Z := omap value (group_rows k db).

(** The summary object of a group of [n] readings with key [k]: the device,
    the count, and maximum, rounded mean, first quartile, third quartile and
    median of the group's values (the quartiles and the median by the
    reference midpoint rule), and the sensor type. *)
Definition summary_object (db : DB) (g : key * nat) : list (string * sqlv) :=
  let zs := group_values (fst g) db in
  combine summary_keys
    [VText (fst (fst g)); VInt (Z.of_nat (snd g)); VInt (maximum zs); VReal (mean2 zs);
     VReal (Qred (percentile_reference zs 25)); VReal (Qred (percentile_reference zs 75));
     VReal (Qred (percentile_reference zs 50)); sqlv_of_text (snd (fst g))].



(** ** Connection handling *)




(** ** Further reference predicates *)

(** A payload the write schema accepts: each field is a [type] holding a
    string or a [value] holding an integer from 0 to 100. *)
Definition accepted (post_data : gmap string jvalue) : Prop :=
  forall k v, post_data !! k = Some v ->
    (k = "type" /\ exists s, v = JStr s)
    \/ (k = "value" /\ exists z, v = JInt z /\ 0 <= z <= 100).

(** The payload [{"value": v}], with no sensor type. *)
Definition value_payload (v : Z) : gmap string jvalue := <["value" := JInt v]> ∅.

(** The payload [{"type": sensor_type}], with no value. *)
Definition type_payload (sensor_type : string) : gmap string jvalue :=
  <["type" := JStr sensor_type]> ∅.

(** Every stored value is NULL or an integer from 0 to 100. *)
Definition in_range_store (db : DB) : Prop :=
  forall r z, In r db -> value r = Some z -> 0 <= z <= 100.

(** The objects of a JSON array response. *)
Definition listed (resp : response) : list (list (string * sqlv)) :=
  match fst resp with BList l => l | _ => [] end.

(** Number of [?] characters in a statement text. *)
Fixpoint count_placeholders (s : string) : nat :=
  match s with
  | EmptyString => O
  | String c s' => ((if Ascii.eqb c "?" then 1 else 0) + count_placeholders s')%nat
  end.

(** The integer values among the readings a filter keeps. *)
Definition matching_values (db : DB) (device sensor_type : string) (start end_ : option string)
    : list Z :=
  omap value (matching db device (Some sensor_type) start end_).



(** * Properties *)

(** ** Validation and the write path *)

Lemma validate_spec (post_data : gmap string jvalue) :
  Cerberus.validate post_data = true <->
  forall k v, post_data !! k = Some v -> Cerberus.field_ok k v = true.
Proof.
  unfold Cerberus.validate. rewrite forallb_forall. split.
  - intros H k v Hkv. apply (H (k, v)).
    apply list_elem_of_In, elem_of_map_to_list. exact Hkv.
  - intros H [k v] Hin. apply H.
    apply elem_of_map_to_list, list_elem_of_In. exact Hin.
Qed.

Lemma validate_false (post_data : gmap string jvalue) k v :
  post_data !! k = Some v -> Cerberus.field_ok k v = false ->
  Cerberus.validate post_data = false.
Proof.
  intros Hkv Hbad. destruct (Cerberus.validate post_data) eqn:E; [|reflexivity].
  rewrite validate_spec in E. rewrite (E _ _ Hkv) in Hbad. discriminate.
Qed.

(** A payload that carries a [date_created] field, whatever its value, is
    turned away and nothing is stored. *)
Lemma post_with_date_created_rejected db device (post_data : gmap string jvalue) now v :
  post_data !! "date_created" = Some v ->
  request_device_readings_post db device post_data now
  = (db, (BText "invalid input", 400)).
Proof.
  intros H. unfold request_device_readings_post.
  rewrite (validate_false _ _ _ H); reflexivity.
Qed.

(** A payload that passed validation is stored with the server time. *)
Lemma post_valid db device (post_data : gmap string jvalue) now :
  Cerberus.validate post_data = true ->
  request_device_readings_post db device post_data now
  = (db ++ [mkRow device (get_type post_data) (get_value post_data) now],
     (BText "success", 201)).
Proof.
  intros H. unfold request_device_readings_post. rewrite H. simpl.
  unfold get_date_created.
  destruct (post_data !! "date_created") as [v|] eqn:E; [|reflexivity].
  rewrite validate_spec in H. specialize (H _ _ E). discriminate.
Qed.

Lemma reading_payload_valid sensor_type v :
  0 <= v <= 100 -> Cerberus.validate (reading_payload sensor_type v) = true.
Proof.
  intros Hv. apply validate_spec. intros k w. unfold reading_payload.
  rewrite lookup_insert. case_decide as Hk.
  - intros [= <-]. subst k. reflexivity.
  - rewrite lookup_insert. case_decide as Hk'.
    + intros [= <-]. subst k. simpl.
      apply andb_true_intro. split; apply Z.leb_le; lia.
    + rewrite lookup_empty. discriminate.
Qed.

(** ** The stable sort *)

Section SortingFacts.
Context {A : Type} (leb : A -> A -> bool).

Lemma insert_sorted_perm x (l : list A) :
  Permutation (insert_sorted leb x l) (x :: l).
Proof.
  induction l as [|y l IH]; simpl; [reflexivity|].
  destruct (leb x y); [reflexivity|].
  rewrite IH. apply perm_swap.
Qed.

Lemma sort_by_perm (l : list A) : Permutation (sort_by leb l) l.
Proof.
  induction l as [|x l IH]; simpl; [reflexivity|].
  rewrite insert_sorted_perm. now apply perm_skip.
Qed.

Lemma sort_by_In x (l : list A) : In x (sort_by leb l) <-> In x l.
Proof.
  split; apply Permutation_in; [|symmetry]; apply sort_by_perm.
Qed.

Lemma sort_by_length (l : list A) : length (sort_by leb l) = length l.
Proof. apply Permutation_length, sort_by_perm. Qed.

Hypothesis leb_total : forall a b, leb a b = true \/ leb b a = true.
Hypothesis leb_trans : forall a b c, leb a b = true -> leb b c = true -> leb a c = true.

Lemma insert_sorted_sorted x (l : list A) :
  StronglySorted (fun a b => leb a b = true) l ->
  StronglySorted (fun a b => leb a b = true) (insert_sorted leb x l).
Proof.
  induction 1 as [|y l Hs IH Hy]; simpl.
  - repeat constructor.
  - destruct (leb x y) eqn:E.
    + constructor; [now constructor|].
      constructor; [exact E|].
      eapply Forall_impl; [exact Hy|]. intros z. now apply leb_trans.
    + constructor; [exact IH|].
      apply List.Forall_forall. intros z Hz.
      apply (Permutation_in _ (insert_sorted_perm x l)) in Hz.
      destruct Hz as [<-|Hz].
      * destruct (leb_total x y) as [H|H]; congruence.
      * rewrite List.Forall_forall in Hy. now apply Hy.
Qed.

Lemma sort_by_sorted (l : list A) :
  StronglySorted (fun a b => leb a b = true) (sort_by leb l).
Proof.
  induction l as [|x l IH]; simpl; [constructor|].
  now apply insert_sorted_sorted.
Qed.
End SortingFacts.




(** ** Numeric reading of bound text *)

Lemma numeric_affinity_text_of_int z : numeric_affinity (text_of_int z) = Some z.
Proof.
  unfold numeric_affinity, text_of_int.
  rewrite NilZero.isi.
  - simpl. now rewrite DecimalZ.of_to.
  - destruct z; simpl; try discriminate.
    intros [= H]. now apply DecimalPos.Unsigned.to_uint_nonnil in H.
  - destruct z; simpl; try discriminate.
    intros [= H]. now apply DecimalPos.Unsigned.to_uint_nonnil in H.
Qed.

Lemma or_none_text_of_int z : or_none (Some (text_of_int z)) = Some (text_of_int z).
Proof.
  unfold or_none. destruct (String.eqb_spec (text_of_int z) "") as [E|]; [|reflexivity].
  pose proof (numeric_affinity_text_of_int z) as H. rewrite E in H. discriminate.
Qed.

(** ** Executing the statements the builders produce *)

Lemma execute_parsed query sel fixed rest cs grouped device ps db :
  String.eqb query summary_statement = false ->
  find_head statement_heads query = Some (sel, fixed, rest) ->
  parse_conds (S (String.length rest)) rest = Some (cs, grouped) ->
  length ps = length (fixed ++ cs) ->
  execute query (device :: ps) db =
  let rows := select_rows device (fixed ++ cs) ps db in
  let vs := map value rows in
  match sel, grouped with
  | SelStar, false => Rows (map row_tuple rows)
  | SelMax, false => Rows [[sql_max vs]]
  | SelMin, false => Rows [[sql_min vs]]
  | SelMean, false => Rows [[sql_mean vs]]
  | SelPercentile pers, false =>
      of_option (row ← mapM (run_percentile vs) pers; Some [row])
  | SelValue, false => Rows (map (fun v => [sqlv_of_int v]) vs)
  | SelValue, true => Rows (mode_rows vs)
  | _, true => Raised
  end.
Proof.
  intros Hq Hh Hp Hl. unfold execute. rewrite Hq, Hh, Hp.
  apply Nat.eqb_eq in Hl. rewrite Hl. reflexivity.
Qed.

Ltac bool_atoms :=
  repeat match goal with
         | |- context [String.eqb ?a ?b] => destruct (String.eqb a b)
         | |- context [holds ?c ?p ?r] => destruct (holds c p r)
         | |- context [ge_param ?c ?p] => destruct (ge_param c p)
         | |- context [le_param ?c ?p] => destruct (le_param c p)
         end; try reflexivity.

Ltac run_statement :=
  erewrite execute_parsed; [ | reflexivity | reflexivity | reflexivity | reflexivity ].

Lemma select_rows_matching device cs ps db t s e :
  (forall r,
     forallb (fun cp => holds (fst cp) (snd cp) r) (combine cs ps)
     = type_ok t r && (start_ok s r && end_ok e r)) ->
  select_rows device cs ps db = matching db device t s e.
Proof.
  intros H. unfold select_rows, matching. apply filter_ext.
  intros r. now rewrite H.
Qed.

(** The listing statement keeps exactly the rows of [matching]. *)
Lemma execute_listing db device t s e :
  execute (fst (query_builder t "select * from readings where device_uuid=?" s e))
          (device :: snd (query_builder t "select * from readings where device_uuid=?" s e))
          db
  = Rows (map row_tuple (matching db device t s e)).
Proof.
  destruct t as [t|], s as [s|], e as [e|]; cbn [query_builder fst snd app];
    run_statement; cbn beta iota zeta;
    (f_equal; f_equal; apply select_rows_matching; intros r; simpl; bool_atoms).
Qed.

Ltac metric_statement h :=
  cbv beta iota zeta delta [h metric_query_builder app];
  run_statement; cbn beta iota zeta;
  erewrite select_rows_matching; [reflexivity|];
  intros r; simpl; bool_atoms.

(** What the metric handlers answer, by the rows their filter keeps. *)
Lemma max_response db device ty s e :
  request_device_readings_max db device (Some ty) s e
  = (BDict [("value", sql_max (map value (matching db device (Some ty) s e)))], 200).
Proof. destruct s, e; metric_statement request_device_readings_max. Qed.

Lemma min_response db device ty s e :
  request_device_readings_min db device (Some ty) s e
  = (BDict [("value", sql_min (map value (matching db device (Some ty) s e)))], 200).
Proof. destruct s, e; metric_statement request_device_readings_min. Qed.

Lemma mean_response db device ty s e :
  request_device_readings_mean db device (Some ty) s e
  = (BDict [("value", sql_mean (map value (matching db device (Some ty) s e)))], 200).
Proof. destruct s, e; metric_statement request_device_readings_mean. Qed.

Lemma median_response db device ty s e :
  request_device_readings_median db device (Some ty) s e
  = metric_response ["value"] (Some (BDict [("value", VText "null")]))
      "Error getting max value"
      (of_option (row ← mapM (run_percentile (map value (matching db device (Some ty) s e))) [50];
                  Some [row])).
Proof. destruct s, e; metric_statement request_device_readings_median. Qed.

Lemma quartiles_response db device ty s e :
  request_device_readings_quartiles db device (Some ty) s e
  = metric_response ["quartile_1"; "quartile_3"] None
      "Error getting max value"
      (of_option (row ← mapM (run_percentile (map value (matching db device (Some ty) s e))) [25; 75];
                  Some [row])).
Proof. destruct s, e; metric_statement request_device_readings_quartiles. Qed.

Lemma mode_response db device ty s e :
  request_device_readings_mode db device (Some ty) s e
  = metric_response ["value"] (Some (BDict [("value", VText "null")]))
      "Error getting mode value"
      (Rows (mode_rows (map value (matching db device (Some ty) s e)))).
Proof. destruct s, e; metric_statement request_device_readings_mode. Qed.

Lemma listing_response db device type_arg start_arg end_arg :
  request_device_readings_get db device type_arg start_arg end_arg
  = (BList (map reading_object
              (matching db device (or_none type_arg) (or_none start_arg) (or_none end_arg))),
     200).
Proof.
  unfold request_device_readings_get.
  pose proof (execute_listing db device (or_none type_arg) (or_none start_arg)
                (or_none end_arg)) as H.
  destruct (query_builder _ _ _ _) as [q ps]. simpl in H. rewrite H.
  now rewrite map_map.
Qed.

(** ** Recording a reading *)

Lemma timed_payload_date_created sensor_type v created :
  timed_payload sensor_type v created !! "date_created" = Some (JInt created).
Proof. unfold timed_payload. apply lookup_insert_eq. Qed.

(** A reading recorded without [date_created] at server time [now] comes
    back from a listing whose filter names its device, its type and a range
    around [now]. *)
Lemma record_then_list_server_time db device sensor_type v now lo hi :
  0 <= v <= 100 -> lo <= now <= hi ->
  exists rows,
    request_device_readings_get
      (fst (request_device_readings_post db device (reading_payload sensor_type v) now))
      device (Some sensor_type) (Some (text_of_int lo)) (Some (text_of_int hi))
    = (BList rows, 200)
    /\ In (reading_object (mkRow device (Some sensor_type) (Some v) now)) rows.
Proof.
  intros Hv Hnow. rewrite post_valid by now apply reading_payload_valid.
  rewrite listing_response, !or_none_text_of_int. eexists. split; [reflexivity|].
  apply in_map. unfold matching. apply filter_In. split.
  - cbn [fst]. apply in_or_app. right. left. reflexivity.
  - cbn [device_uuid date_created type start_ok end_ok].
    unfold ge_param, le_param. rewrite !numeric_affinity_text_of_int.
    rewrite String.eqb_refl. cbn [andb].
    assert (Ht : type_ok (or_none (Some sensor_type))
                   (mkRow device (Some sensor_type) (Some v) now) = true).
    { unfold or_none. destruct (String.eqb sensor_type ""); [reflexivity|].
      simpl. apply String.eqb_refl. }
    rewrite Ht. cbn [andb]. apply andb_true_intro. split; apply Z.leb_le; lia.
Qed.

(** C1, at the failing input.  A record request that carries the reading's
    [date_created] is answered with 400 and stores nothing, so a later
    listing is what it was before; on the empty store, the listing with the
    matching filter is empty. *)
Theorem record_with_created_at_then_list db device sensor_type v created now ty s e :
  request_device_readings_post db device (timed_payload sensor_type v created) now
  = (db, (BText "invalid input", 400))
  /\ request_device_readings_get
       (fst (request_device_readings_post db device (timed_payload sensor_type v created) now))
       device ty s e
     = request_device_readings_get db device ty s e
  /\ request_device_readings_get
       (fst (request_device_readings_post [] "test_device"
               (timed_payload "temperature" 50 1000) 2000))
       "test_device" (Some "temperature") (Some "1000") (Some "1000")
     = (BList [], 200).
Proof.
  rewrite (post_with_date_created_rejected db device _ now _
             (timed_payload_date_created sensor_type v created)).
  split; [reflexivity|]. split; [reflexivity|]. vm_compute. reflexivity.
Qed.

(** C2.  A record request whose value is an integer below 0 or above 100 is
    answered with 400 ("invalid input") and leaves the store as it was; in
    particular the number of rows of the device is the same. *)
Theorem record_out_of_range_rejected db device (post_data : gmap string jvalue) now v :
  post_data !! "value" = Some (JInt v) ->
  v < 0 \/ 100 < v ->
  request_device_readings_post db device post_data now
  = (db, (BText "invalid input", 400))
  /\ length (List.filter (fun r => String.eqb (device_uuid r) device)
               (fst (request_device_readings_post db device post_data now)))
     = length (List.filter (fun r => String.eqb (device_uuid r) device) db).
Proof.
  intros Hv Hrange.
  assert (H : request_device_readings_post db device post_data now
              = (db, (BText "invalid input", 400))).
  { unfold request_device_readings_post.
    rewrite (validate_false _ _ _ Hv); [reflexivity|].
    simpl. destruct Hrange as [Hlt|Hgt].
    - apply andb_false_intro1. apply Z.leb_gt. exact Hlt.
    - apply andb_false_intro2. apply Z.leb_gt. exact Hgt. }
  rewrite H. split; reflexivity.
Qed.

Lemma record_out_of_range_rejected_witness :
  request_device_readings_post (fixture 100 150 200) "test_device"
    (reading_payload "temperature" 130) 300
  = (fixture 100 150 200, (BText "invalid input", 400))
  /\ length (List.filter (fun r => String.eqb (device_uuid r) "test_device")
               (fst (request_device_readings_post (fixture 100 150 200) "test_device"
                       (reading_payload "temperature" 130) 300)))
     = length (List.filter (fun r => String.eqb (device_uuid r) "test_device")
                 (fixture 100 150 200)).
Proof.
  apply (record_out_of_range_rejected (fixture 100 150 200) "test_device"
           (reading_payload "temperature" 130) 300 130).
  - reflexivity.
  - right. lia.
Defined.

(** A [type] field that is not a string is turned away. *)
Lemma record_type_not_string db device (post_data : gmap string jvalue) now x :
  post_data !! "type" = Some x -> (forall s, x <> JStr s) ->
  request_device_readings_post db device post_data now
  = (db, (BText "invalid input", 400)).
Proof.
  intros Hx Hns. unfold request_device_readings_post.
  rewrite (validate_false _ _ _ Hx); [reflexivity|].
  destruct x; try reflexivity. now destruct (Hns s).
Qed.

(** C5, against the claim as stated: a record request whose sensor type is
    the empty string is not turned away; it succeeds and is stored. *)
Lemma record_accepts_empty_type :
  request_device_readings_post [] "test_device" (reading_payload "" 10) 2000
  = ([mkRow "test_device" (Some "") (Some 10) 2000], (BText "success", 201))
  /\ snd (snd (request_device_readings_post [] "test_device" (reading_payload "" 10) 2000))
     <> 400.
Proof. split; [vm_compute; reflexivity | vm_compute; discriminate]. Qed.

(** C5, amended.  A record request with any string as sensor type, the empty
    one included, and an integer value in [0, 100], that gives no
    [date_created], succeeds with 201 and appends the reading with the
    server time as its [date_created]. *)
Theorem record_contract db device sensor_type v now :
  0 <= v <= 100 ->
  request_device_readings_post db device (reading_payload sensor_type v) now
  = (db ++ [mkRow device (Some sensor_type) (Some v) now], (BText "success", 201)).
Proof.
  intros Hv. rewrite post_valid by now apply reading_payload_valid.
  reflexivity.
Qed.

Lemma record_contract_witness :
  request_device_readings_post (fixture 100 150 200) "test_device"
    (reading_payload "temperature" 100) 300
  = (fixture 100 150 200 ++ [mkRow "test_device" (Some "temperature") (Some 100) 300],
     (BText "success", 201)).
Proof.
  apply (record_contract (fixture 100 150 200) "test_device" "temperature" 100 300).
  lia.
Defined.

(** ** Listing *)

Lemma matching_In db device t s e r :
  In r (matching db device t s e) <->
  In r db /\ String.eqb (device_uuid r) device = true /\ type_ok t r = true
  /\ start_ok s r = true /\ end_ok e r = true.
Proof.
  unfold matching. rewrite filter_In, !andb_true_iff. tauto.
Qed.

Lemma or_none_bound (b : option Z) :
  or_none (text_of_int <$> b) = text_of_int <$> b.
Proof. destruct b; [apply or_none_text_of_int | reflexivity]. Qed.

(** C4.  With the bounds sent as the decimal text of the epochs [lo] and
    [hi] (each one optional), the listing answers 200 with the objects of
    exactly those stored readings of the device (and of the sensor type, when
    one is asked for) whose [date_created] satisfies [lo <= date_created] and
    [date_created <= hi]: nothing outside the bounds is returned, everything
    inside is, and both ends are included. *)
Theorem listing_bounds_inclusive db device type_arg (lo hi : option Z) :
  exists rows,
    request_device_readings_get db device type_arg (text_of_int <$> lo) (text_of_int <$> hi)
    = (BList (map reading_object rows), 200)
    /\ forall r,
         In r rows <->
         In r db /\ device_uuid r = device
         /\ (forall t, or_none type_arg = Some t -> type r = Some t)
         /\ (forall s, lo = Some s -> s <= date_created r)
         /\ (forall e, hi = Some e -> date_created r <= e).
Proof.
  eexists. split.
  - rewrite listing_response, !or_none_bound. reflexivity.
  - intros r. rewrite matching_In, String.eqb_eq.
    assert (Ht : type_ok (or_none type_arg) r = true
                 <-> forall t, or_none type_arg = Some t -> type r = Some t).
    { destruct (or_none type_arg) as [t|]; simpl.
      - destruct (type r) as [t'|].
        + rewrite String.eqb_eq. split.
          * intros -> ? [= <-]. reflexivity.
          * intros H. specialize (H t eq_refl). now injection H.
        + split; [discriminate|]. intros H. now specialize (H t eq_refl).
      - split; [discriminate | reflexivity]. }
    assert (Hs : start_ok (text_of_int <$> lo) r = true
                 <-> forall s, lo = Some s -> s <= date_created r).
    { destruct lo as [s|]; simpl.
      - unfold ge_param. rewrite numeric_affinity_text_of_int, Z.leb_le. split.
        + intros H ? [= <-]. exact H.
        + intros H. now apply H.
      - split; [discriminate | reflexivity]. }
    assert (He : end_ok (text_of_int <$> hi) r = true
                 <-> forall e, hi = Some e -> date_created r <= e).
    { destruct hi as [e|]; simpl.
      - unfold le_param. rewrite numeric_affinity_text_of_int, Z.leb_le. split.
        + intros H ? [= <-]. exact H.
        + intros H. now apply H.
      - split; [discriminate | reflexivity]. }
    rewrite Ht, Hs, He. reflexivity.
Qed.

(** C10.  A listing request whose [type] argument is the empty string
    answers exactly what the request without a [type] argument answers; with
    no bounds that is every stored reading of the device, whatever its
    type. *)
Theorem empty_type_is_no_type db device start_arg end_arg :
  request_device_readings_get db device (Some "") start_arg end_arg
  = request_device_readings_get db device None start_arg end_arg
  /\ request_device_readings_get db device (Some "") None None
     = (BList (map reading_object
                 (List.filter (fun r => String.eqb (device_uuid r) device) db)), 200).
Proof.
  split; [reflexivity|].
  rewrite listing_response. do 3 f_equal. unfold matching.
  apply filter_ext. intros r. simpl. now rewrite !andb_true_r.
Qed.

(** ** The predicate builders *)

(** C9.  Two filters that agree on which of sensor type, start and end are
    present get the same clause text from either builder, whatever the
    values; the values are returned only as bound parameters, in the order
    sensor type, start, end. *)
Theorem builder_text_ignores_values
    (template : string) (t t' s s' e e' : option string) (ty ty' : string) :
  (is_Some t <-> is_Some t') ->
  (is_Some s <-> is_Some s') ->
  (is_Some e <-> is_Some e') ->
  fst (query_builder t template s e) = fst (query_builder t' template s' e')
  /\ snd (query_builder t template s e) = present t ++ present s ++ present e
  /\ fst (metric_query_builder ty template s e)
     = fst (metric_query_builder ty' template s' e')
  /\ snd (metric_query_builder ty template s e) = ty :: present s ++ present e.
Proof.
  intros Ht Hs He.
  assert (absurd1 : forall (x : string), ~ (is_Some (Some x) <-> is_Some (@None string))).
  { intros x [H _]. destruct H as [y Hy]; [eauto | discriminate]. }
  assert (absurd2 : forall (x : string), ~ (is_Some (@None string) <-> is_Some (Some x))).
  { intros x [_ H]. destruct H as [y Hy]; [eauto | discriminate]. }
  destruct t, t'; try (now apply absurd1 in Ht); try (now apply absurd2 in Ht);
  destruct s, s'; try (now apply absurd1 in Hs); try (now apply absurd2 in Hs);
  destruct e, e'; try (now apply absurd1 in He); try (now apply absurd2 in He);
  repeat split.
Qed.

Lemma builder_text_ignores_values_witness :
  fst (query_builder (Some "temperature") "select * from readings where device_uuid=?"
         (Some "100") None)
  = fst (query_builder (Some "x' or '1'='1") "select * from readings where device_uuid=?"
           (Some "0; drop table readings") None)
  /\ snd (query_builder (Some "temperature") "select * from readings where device_uuid=?"
            (Some "100") None)
     = present (Some "temperature") ++ present (Some "100") ++ present None
  /\ fst (metric_query_builder "temperature" "select * from readings where device_uuid=?"
            (Some "100") None)
     = fst (metric_query_builder "humidity" "select * from readings where device_uuid=?"
              (Some "0; drop table readings") None)
  /\ snd (metric_query_builder "temperature" "select * from readings where device_uuid=?"
            (Some "100") None)
     = "temperature" :: present (Some "100") ++ present None.
Proof.
  apply (builder_text_ignores_values "select * from readings where device_uuid=?"
           (Some "temperature") (Some "x' or '1'='1")
           (Some "100") (Some "0; drop table readings") None None
           "temperature" "humidity").
  - split; intros _; eexists; reflexivity.
  - split; intros _; eexists; reflexivity.
  - split; intros H; exact H.
Defined.

(** ** Aggregates over an empty selection *)




(** ** Mode *)

Lemma In_remove_dups `{EqDecision A} (x : A) (l : list A) :
  In x (remove_dups l) <-> In x l.
Proof. rewrite <- !list_elem_of_In. apply elem_of_remove_dups. Qed.




(** ** Percentiles *)
Lemma index_floor p N : Qfloor ((p # 100) * inject_Z (N - 1)) = (p * (N - 1)) / 100.
Proof. reflexivity. Qed.

Lemma index_ceiling p N :
  Qceiling ((p # 100) * inject_Z (N - 1)) = - ((- (p * (N - 1))) / 100).
Proof. reflexivity. Qed.

Lemma index_whole p N :
  Qeq_bool ((p # 100) * inject_Z (N - 1))
           (inject_Z (Qfloor ((p # 100) * inject_Z (N - 1))))
  = ((p * (N - 1)) mod 100 =? 0).
Proof.
  unfold Qeq_bool, Qfloor, Qmult, inject_Z. simpl.
  change (Z.pos (100 * 1)) with 100.
  pose proof (Z.div_mod (p * (N - 1)) 100 ltac:(lia)) as H.
  destruct (Z.eqb_spec ((p * (N - 1)) mod 100) 0) as [E|E].
  - apply Z.eqb_eq. lia.
  - apply Z.eqb_neq. lia.
Qed.

Lemma half_sum_floor F C :
  Qfloor ((1 # 2) * (inject_Z F + inject_Z C)) = (F + C) / 2.
Proof.
  unfold Qfloor, Qmult, Qplus, inject_Z. simpl.
  change (Z.pos (2 * (1 * 1))) with 2. f_equal. lia.
Qed.

Lemma blend_same (x y : Z) F :
  (inject_Z x * (1 - ((1 # 2) * (inject_Z F + inject_Z F) - inject_Z F))
   + inject_Z y * ((1 # 2) * (inject_Z F + inject_Z F) - inject_Z F) == inject_Z x)%Q.
Proof. unfold Qeq, Qplus, Qminus, Qmult, Qopp, inject_Z. simpl. lia. Qed.

Lemma blend_next (x y : Z) F :
  (inject_Z x * (1 - ((1 # 2) * (inject_Z F + inject_Z (F + 1)) - inject_Z F))
   + inject_Z y * ((1 # 2) * (inject_Z F + inject_Z (F + 1)) - inject_Z F)
   == (inject_Z x + inject_Z y) / 2)%Q.
Proof. unfold Qeq, Qplus, Qminus, Qmult, Qopp, Qdiv, Qinv, inject_Z. simpl. lia. Qed.

Lemma midpoint_reference values p :
  values <> [] -> 0 <= p <= 100 ->
  (Numpy.midpoint values p == percentile_reference values p)%Q.
Proof.
  intros Hne Hp. unfold Numpy.midpoint, percentile_reference.
  set (a := sort_by Z.leb values).
  set (N := Z.of_nat (length a)).
  assert (HN : 1 <= N).
  { unfold N, a. rewrite sort_by_length. destruct values; [congruence|simpl; lia]. }
  cbv zeta. rewrite index_whole, half_sum_floor, index_floor, index_ceiling.
  set (m := p * (N - 1)).
  assert (Hm : 0 <= m <= 100 * (N - 1)) by (unfold m; nia).
  pose proof (Z.div_mod m 100 ltac:(lia)) as Hdm.
  pose proof (Z.mod_pos_bound m 100 ltac:(lia)) as Hmod.
  destruct (Z.eqb_spec (m mod 100) 0) as [E|E].
  - rewrite (Z_div_zero_opp_full m 100 E).
    replace (- - (m / 100)) with (m / 100) by lia.
    replace ((m / 100 + m / 100) / 2) with (m / 100)
      by (apply Z.div_unique with 0; lia).
    apply blend_same.
  - rewrite (Z_div_nz_opp_full m 100 ltac:(lia) E).
    replace (- (- (m / 100) - 1)) with (m / 100 + 1) by lia.
    replace ((m / 100 + (m / 100 + 1)) / 2) with (m / 100)
      by (apply Z.div_unique with 1; lia).
    replace (Z.min (m / 100 + 1) (N - 1)) with (m / 100 + 1) by lia.
    apply blend_next.
Qed.

Lemma fold_step (vs : list (option Z)) per self :
  fold_left (fun self v => Percentile.step self v per) vs self
  = Percentile.mk (Percentile.arr self ++ vs)
      (match vs with [] => Percentile.percentile self | _ => Some per end).
Proof.
  revert self. induction vs as [|v vs IH]; intros self; simpl.
  - rewrite app_nil_r. now destruct self.
  - rewrite IH. simpl. rewrite <- app_assoc. simpl. now destruct vs.
Qed.


Lemma nanpercentile_integers (values : list Z) p :
  values <> [] -> 0 <= p <= 100 ->
  Numpy.nanpercentile (map Some values) p = Some (Numpy.midpoint values p).
Proof.
  intros Hne Hp. unfold Numpy.nanpercentile.
  destruct values as [|x xs]; [congruence|].
  assert (Hall : forall l : list Z,
             forallb (fun v : option Z => match v with Some _ => true | None => false end)
                     (map Some l) = true)
    by (induction l; simpl; auto).
  assert (Hid : forall l : list Z, omap id (map Some l) = l)
    by (induction l as [|y l IH]; simpl; [reflexivity | f_equal; exact IH]).
  cbn [map]. change (Some x :: map Some xs) with (map Some (x :: xs)).
  rewrite Hall, Hid. cbn [andb].
  destruct (Z.leb_spec 0 p); [|lia]. destruct (Z.leb_spec p 100); [|lia].
  reflexivity.
Qed.




(** ** Summary *)
Lemma fold_left_max_ge (zs : list Z) a : a <= fold_left Z.max zs a.
Proof.
  revert a. induction zs as [|z zs IH]; intros a; simpl; [lia|].
  specialize (IH (Z.max a z)). lia.
Qed.

Lemma fold_left_max_right (zs : list Z) a :
  fold_left Z.max zs a = Z.max a (fold_right Z.max a zs).
Proof.
  revert a. induction zs as [|z zs IH]; intros a; simpl; [lia|].
  rewrite IH.
  assert (H : forall b c, b <= c -> Z.max c (fold_right Z.max b zs) = Z.max c (fold_right Z.max c zs)).
  { clear. induction zs as [|y zs IH]; intros b c Hbc; simpl; [lia|].
    specialize (IH b c Hbc). lia. }
  specialize (H a (Z.max a z) ltac:(lia)). lia.
Qed.

Lemma sql_max_integers (zs : list Z) :
  zs <> [] -> sql_max (map Some zs) = VInt (maximum zs).
Proof.
  intros Hne. unfold sql_max, maximum.
  assert (Hid : forall l : list Z, omap id (map Some l) = l)
    by (induction l as [|y l IH]; simpl; [reflexivity | f_equal; exact IH]).
  rewrite Hid. destruct zs as [|z zs]; [congruence|]. simpl.
  f_equal. rewrite fold_left_max_right. reflexivity.
Qed.

Lemma maximum_spec (zs : list Z) :
  zs <> [] -> In (maximum zs) zs /\ forall z, In z zs -> z <= maximum zs.
Proof.
  intros Hne. unfold maximum. destruct zs as [|a zs]; [congruence|]. clear Hne.
  cbn [hd]. 
  assert (H : forall l : list Z, (fold_right Z.max a l = a \/ In (fold_right Z.max a l) l)
                      /\ a <= fold_right Z.max a l
                      /\ forall z, In z l -> z <= fold_right Z.max a l).
  { induction l as [|y l [IH1 [IH2 IH3]]]; simpl.
    - split; [now left|]. split; [lia|]. intros z [].
    - split; [|split].
      + destruct (Z.max_spec y (fold_right Z.max a l)) as [[_ ->]|[_ ->]].
        * destruct IH1 as [->|IH1]; [now left | right; now right].
        * right. now left.
      + lia.
      + intros z [<-|Hz]; [lia|]. specialize (IH3 z Hz). lia. }
  destruct (H (a :: zs)) as [H1 [H2 H3]]. split; [|exact H3].
  destruct H1 as [H1|H1]; [|exact H1]. rewrite H1. now left.
Qed.

Lemma values_all_integers (rows : list Row) :
  (forall r, In r rows -> value r <> None) ->
  map value rows = map Some (omap value rows).
Proof.
  induction rows as [|r rows IH]; intros H; [reflexivity|].
  assert (Hr : value r <> None) by (apply H; now left).
  assert (IH' : map value rows = map Some (omap value rows))
    by (apply IH; intros r' Hr'; apply H; now right).
  cbn [map]. rewrite IH'. cbn. destruct (value r) as [z|]; [reflexivity | congruence].
Qed.

Lemma run_percentile_integers (zs : list Z) p :
  zs <> [] -> 0 <= p <= 100 ->
  run_percentile (map Some zs) p = Some (VReal (Qred (percentile_reference zs p))).
Proof.
  intros Hne Hp. unfold run_percentile.
  rewrite fold_step. unfold Percentile.finalize.
  destruct zs as [|z zs']; [congruence|].
  cbn [map Percentile.percentile Percentile.arr Percentile.init app].
  change (Some z :: map Some zs') with (map Some (z :: zs')).
  rewrite nanpercentile_integers by assumption.
  do 2 f_equal. apply Qred_complete. now apply midpoint_reference.
Qed.

Lemma mapM_total {A B : Type} (f : A -> option B) (h : A -> B) (l : list A) :
  (forall x, In x l -> f x = Some (h x)) -> mapM f l = Some (map h l).
Proof.
  induction l as [|x l IH]; intros H; [reflexivity|]. cbn.
  rewrite (H x) by now left. cbn. rewrite IH by (intros y Hy; apply H; now right).
  reflexivity.
Qed.

Lemma summary_groups_In db g :
  In g (summary_groups db) <->
  In (fst g) (map key_of db) /\ snd g = length (group_rows (fst g) db).
Proof.
  unfold summary_groups. rewrite sort_by_In, in_map_iff. destruct g as [k n]. simpl. split.
  - intros [k' [[= -> <-] Hk]].
    apply (proj1 (sort_by_In _ _ _)), (proj1 (In_remove_dups _ _)) in Hk. now split.
  - intros [Hk ->]. exists k. split; [reflexivity|].
    now apply (proj2 (sort_by_In _ _ _)), (proj2 (In_remove_dups _ _)).
Qed.


Lemma group_rows_In k db r : In r (group_rows k db) <-> In r db /\ key_of r = k.
Proof.
  unfold group_rows. rewrite filter_In. rewrite bool_decide_eq_true. reflexivity.
Qed.

Lemma summary_row_integers db g :
  (forall r, In r db -> value r <> None) ->
  In g (summary_groups db) ->
  summary_row db g
  = Some (map snd (summary_object db g)).
Proof.
  intros Hint Hg. apply summary_groups_In in Hg. destruct Hg as [Hk Hn].
  apply in_map_iff in Hk. destruct Hk as [r0 [Hr0 Hin0]].
  unfold summary_row, summary_object, group_values.
  rewrite (values_all_integers (group_rows (fst g) db))
    by (intros r Hr; apply Hint; now apply group_rows_In in Hr).
  assert (Hne : omap value (group_rows (fst g) db) <> []).
  { assert (Hr : In r0 (group_rows (fst g) db)) by (apply group_rows_In; now split).
    pose proof (values_all_integers (group_rows (fst g) db)
                  ltac:(intros r Hr'; apply Hint; now apply group_rows_In in Hr')) as Hv.
    intros Hnil. rewrite Hnil in Hv.
    destruct (group_rows (fst g) db); [destruct Hr | discriminate]. }
  rewrite !run_percentile_integers by (assumption || lia). cbn.
  rewrite sql_max_integers by assumption.
  do 2 f_equal. f_equal. f_equal. unfold sql_mean, mean2.
  assert (Hid : forall l : list Z, omap id (map Some l) = l)
    by (induction l as [|y l IH]; simpl; [reflexivity | f_equal; exact IH]).
  rewrite Hid. destruct (omap value (group_rows (fst g) db)); [congruence | reflexivity].
Qed.

Lemma summary_response db :
  (forall r, In r db -> value r <> None) ->
  request_device_summary db = (BList (map (summary_object db) (summary_groups db)), 200).
Proof.
  intros Hint. unfold request_device_summary, execute.
  rewrite String.eqb_refl.
  rewrite (mapM_total _ (fun g => map snd (summary_object db g)))
    by (intros g Hg; now apply summary_row_integers).
  cbn [of_option]. rewrite map_map. reflexivity.
Qed.



(** * Further properties of the handlers *)

(** ** More on the write path *)

Lemma field_ok_accepted k v :
  Cerberus.field_ok k v = true <->
  (k = "type" /\ exists s, v = JStr s)
  \/ (k = "value" /\ exists z, v = JInt z /\ 0 <= z <= 100).
Proof.
  unfold Cerberus.field_ok.
  destruct (String.eqb_spec k "type") as [->|Ht].
  - split.
    + destruct v; try discriminate. intros _. left. eauto.
    + intros [[_ [s ->]]|[[=] _]]. reflexivity.
  - destruct (String.eqb_spec k "value") as [->|Hv].
    + split.
      * destruct v; try discriminate. intros H. apply andb_true_iff in H.
        rewrite !Z.leb_le in H. right. split; [reflexivity|]. exists z. split; [reflexivity|lia].
      * intros [[[=] _]|[_ [z [-> Hz]]]]. apply andb_true_iff. rewrite !Z.leb_le. lia.
    + split; [discriminate|]. intros [[-> _]|[-> _]]; congruence.
Qed.

Lemma validate_accepted (post_data : gmap string jvalue) :
  Cerberus.validate post_data = true <-> accepted post_data.
Proof.
  rewrite validate_spec. unfold accepted. split; intros H k v Hkv.
  - apply field_ok_accepted. now apply H.
  - apply field_ok_accepted. now apply H.
Qed.


Lemma post_store db device (post_data : gmap string jvalue) now :
  fst (request_device_readings_post db device post_data now) = db
  \/ (Cerberus.validate post_data = true
      /\ fst (request_device_readings_post db device post_data now)
         = db ++ [mkRow device (get_type post_data) (get_value post_data) now]).
Proof.
  destruct (Cerberus.validate post_data) eqn:E.
  - right. split; [reflexivity|]. now rewrite post_valid.
  - left. unfold request_device_readings_post. now rewrite E.
Qed.

(** X2.  No record request can bring a value outside 0..100 into the
    store: when every stored value is NULL or within 0..100, so is every
    value of the store after the request. *)
Theorem post_keeps_values_in_range db device (post_data : gmap string jvalue) now :
  in_range_store db ->
  in_range_store (fst (request_device_readings_post db device post_data now)).
Proof.
  intros Hdb. destruct (post_store db device post_data now) as [->|[Hv ->]]; [exact Hdb|].
  intros r z Hr Hz. apply in_app_or in Hr. destruct Hr as [Hr|[<-|[]]].
  - now apply (Hdb r).
  - cbn [value] in Hz. unfold get_value in Hz.
    destruct (post_data !! "value") as [x|] eqn:Ex; [|discriminate].
    destruct x; try discriminate. injection Hz as ->.
    apply validate_accepted in Hv. destruct (Hv _ _ Ex) as [[[=] _]|[_ [z' [[= <-] Hz']]]].
    exact Hz'.
Qed.

Lemma post_keeps_values_in_range_witness :
  in_range_store
    (fst (request_device_readings_post (fixture 100 150 200) "test_device"
            (reading_payload "temperature" 100) 300)).
Proof.
  apply (post_keeps_values_in_range (fixture 100 150 200) "test_device"
           (reading_payload "temperature" 100) 300).
  intros r z Hr Hz. vm_compute in Hr.
  destruct Hr as [<-|[<-|[<-|[<-|[<-|[]]]]]]; injection Hz as <-; lia.
Defined.



(** ** Recording and then reading *)

Lemma matching_app db db' device t s e :
  matching (db ++ db') device t s e = matching db device t s e ++ matching db' device t s e.
Proof. unfold matching. apply List.filter_app. Qed.

Lemma matching_other_device device device' ty v now t s e :
  device' <> device -> matching [mkRow device ty v now] device' t s e = [].
Proof.
  intros Hne. unfold matching. cbn [List.filter device_uuid].
  destruct (String.eqb_spec device device') as [E|_]; [congruence | reflexivity].
Qed.

Lemma matching_post_other db device device' (post_data : gmap string jvalue) now t s e :
  device' <> device ->
  matching (fst (request_device_readings_post db device post_data now)) device' t s e
  = matching db device' t s e.
Proof.
  intros Hne. destruct (post_store db device post_data now) as [->|[_ ->]]; [reflexivity|].
  rewrite matching_app, matching_other_device by assumption. apply app_nil_r.
Qed.

(** X6.  A record request for one device changes no answer of the
    listing or of an aggregate asked about another device. *)
Theorem record_leaves_other_devices db device device' (post_data : gmap string jvalue) now
    type_arg s e :
  device' <> device ->
  request_device_readings_get
    (fst (request_device_readings_post db device post_data now)) device' type_arg s e
  = request_device_readings_get db device' type_arg s e
  /\ request_device_readings_max
       (fst (request_device_readings_post db device post_data now)) device' type_arg s e
     = request_device_readings_max db device' type_arg s e
  /\ request_device_readings_min
       (fst (request_device_readings_post db device post_data now)) device' type_arg s e
     = request_device_readings_min db device' type_arg s e
  /\ request_device_readings_mean
       (fst (request_device_readings_post db device post_data now)) device' type_arg s e
     = request_device_readings_mean db device' type_arg s e
  /\ request_device_readings_median
       (fst (request_device_readings_post db device post_data now)) device' type_arg s e
     = request_device_readings_median db device' type_arg s e
  /\ request_device_readings_mode
       (fst (request_device_readings_post db device post_data now)) device' type_arg s e
     = request_device_readings_mode db device' type_arg s e
  /\ request_device_readings_quartiles
       (fst (request_device_readings_post db device post_data now)) device' type_arg s e
     = request_device_readings_quartiles db device' type_arg s e.
Proof.
  intros Hne. split.
  - now rewrite !listing_response, matching_post_other.
  - destruct type_arg as [ty|]; [|repeat split].
    rewrite !max_response, !min_response, !mean_response, !median_response,
      !mode_response, !quartiles_response, matching_post_other by assumption.
    repeat split.
Qed.

Lemma record_leaves_other_devices_witness :
  request_device_readings_get
    (fst (request_device_readings_post (fixture 100 150 200) "test_device"
            (reading_payload "temperature" 7) 300))
    "other_uuid" None None None
  = request_device_readings_get (fixture 100 150 200) "other_uuid" None None None.
Proof.
  apply (proj1 (record_leaves_other_devices (fixture 100 150 200) "test_device" "other_uuid"
                  (reading_payload "temperature" 7) 300 None None None
                  ltac:(discriminate))).
Defined.

Lemma listed_listing db device type_arg start_arg end_arg :
  listed (request_device_readings_get db device type_arg start_arg end_arg)
  = map reading_object
      (matching db device (or_none type_arg) (or_none start_arg) (or_none end_arg)).
Proof. now rewrite listing_response. Qed.

Lemma matching_device_only db device :
  matching db device None None None
  = List.filter (fun r => String.eqb (device_uuid r) device) db.
Proof.
  unfold matching. apply filter_ext. intros r. simpl. now rewrite !andb_true_r.
Qed.

(** X7.  An accepted record request adds exactly one object, at the
    end, to the unfiltered listing of its device. *)
Theorem record_extends_listing db device (post_data : gmap string jvalue) now :
  accepted post_data ->
  listed (request_device_readings_get
            (fst (request_device_readings_post db device post_data now)) device None None None)
  = listed (request_device_readings_get db device None None None)
    ++ [reading_object (mkRow device (get_type post_data) (get_value post_data) now)].
Proof.
  intros Hacc. apply validate_accepted in Hacc. rewrite post_valid by assumption.
  rewrite !listed_listing. cbn [fst or_none]. rewrite matching_app, map_app. f_equal.
  rewrite matching_device_only. cbn [List.filter device_uuid].
  now rewrite String.eqb_refl.
Qed.

Lemma reading_payload_accepted sensor_type v :
  0 <= v <= 100 -> accepted (reading_payload sensor_type v).
Proof. intros Hv. now apply validate_accepted, reading_payload_valid. Qed.

Lemma record_extends_listing_witness :
  listed (request_device_readings_get
            (fst (request_device_readings_post (fixture 100 150 200) "test_device"
                    (reading_payload "temperature" 100) 300))
            "test_device" None None None)
  = listed (request_device_readings_get (fixture 100 150 200) "test_device" None None None)
    ++ [reading_object (mkRow "test_device" (get_type (reading_payload "temperature" 100))
                          (get_value (reading_payload "temperature" 100)) 300)].
Proof.
  apply (record_extends_listing (fixture 100 150 200) "test_device"
           (reading_payload "temperature" 100) 300).
  apply reading_payload_accepted. lia.
Defined.

Lemma value_payload_valid z : 0 <= z <= 100 -> Cerberus.validate (value_payload z) = true.
Proof.
  intros Hz. apply validate_spec. intros k w. unfold value_payload.
  rewrite lookup_insert. case_decide as Hk.
  - intros [= <-]. subst k. simpl. apply andb_true_intro. split; apply Z.leb_le; lia.
  - rewrite lookup_empty. discriminate.
Qed.

Lemma reading_object_type r r' :
  reading_object r = reading_object r' -> type r = type r'.
Proof.
  unfold reading_object, row_tuple, readings_keys. cbn [combine]. intros [= _ H _ _].
  destruct (type r), (type r'); simpl in H; congruence.
Qed.

(** X4.  A record request without a sensor type is accepted and stored
    with a NULL type: the unfiltered listing shows the reading, a listing
    that asks for a sensor type never does. *)
Theorem record_without_type db device z now t s e :
  0 <= z <= 100 -> t <> "" ->
  request_device_readings_post db device (value_payload z) now
  = (db ++ [mkRow device None (Some z) now], (BText "success", 201))
  /\ In (reading_object (mkRow device None (Some z) now))
        (listed (request_device_readings_get (db ++ [mkRow device None (Some z) now])
                   device None None None))
  /\ ~ In (reading_object (mkRow device None (Some z) now))
          (listed (request_device_readings_get (db ++ [mkRow device None (Some z) now])
                     device (Some t) s e)).
Proof.
  intros Hz Ht. split; [|split].
  - rewrite post_valid by now apply value_payload_valid. reflexivity.
  - rewrite listed_listing. apply in_map. cbn [or_none]. rewrite matching_app.
    apply in_or_app. right. rewrite matching_device_only. cbn [List.filter device_uuid].
    rewrite String.eqb_refl. now left.
  - rewrite listed_listing. intros Hin. apply in_map_iff in Hin.
    destruct Hin as [r [Hobj Hr]]. apply reading_object_type in Hobj. cbn [type] in Hobj.
    apply matching_In in Hr. destruct Hr as [_ [_ [Hty _]]].
    unfold or_none in Hty. destruct (String.eqb_spec t "") as [E|_]; [congruence|].
    simpl in Hty. rewrite Hobj in Hty. discriminate.
Qed.

Lemma record_without_type_witness :
  request_device_readings_post (fixture 100 150 200) "test_device" (value_payload 7) 300
  = (fixture 100 150 200 ++ [mkRow "test_device" None (Some 7) 300], (BText "success", 201))
  /\ In (reading_object (mkRow "test_device" None (Some 7) 300))
        (listed (request_device_readings_get
                   (fixture 100 150 200 ++ [mkRow "test_device" None (Some 7) 300])
                   "test_device" None None None))
  /\ ~ In (reading_object (mkRow "test_device" None (Some 7) 300))
          (listed (request_device_readings_get
                     (fixture 100 150 200 ++ [mkRow "test_device" None (Some 7) 300])
                     "test_device" (Some "temperature") None None)).
Proof.
  apply (record_without_type (fixture 100 150 200) "test_device" 7 300 "temperature" None None).
  - lia.
  - discriminate.
Defined.

(** ** Listing: what it never does *)

Lemma filter_sublist {A : Type} (f : A -> bool) (l : list A) : sublist (List.filter f l) l.
Proof.
  induction l as [|x l IH]; simpl; [constructor|].
  destruct (f x); now constructor.
Qed.

(** X9.  A listing always answers 200, with the objects of stored
    readings of the asked device only, in storage order. *)
Theorem listing_sublist_of_device db device type_arg start_arg end_arg :
  exists rows,
    request_device_readings_get db device type_arg start_arg end_arg
    = (BList (map reading_object rows), 200)
    /\ sublist rows db
    /\ forall r, In r rows -> device_uuid r = device.
Proof.
  eexists. split; [apply listing_response|]. split.
  - apply filter_sublist.
  - intros r Hr. apply matching_In in Hr. destruct Hr as [_ [Hd _]].
    now apply String.eqb_eq in Hd.
Qed.


(** ** Minimum and maximum *)

Lemma omap_id_map {A : Type} (f : A -> option Z) (l : list A) :
  omap id (map f l) = omap f l.
Proof.
  induction l as [|x l IH]; [reflexivity|]. cbn. destruct (f x); cbn; [f_equal|]; exact IH.
Qed.

Lemma fold_left_max_spec (zs : list Z) a :
  In (fold_left Z.max zs a) (a :: zs)
  /\ forall z, In z (a :: zs) -> z <= fold_left Z.max zs a.
Proof.
  revert a. induction zs as [|y zs IH]; intros a; cbn [fold_left].
  - split; [now left|]. intros z [<-|[]]. lia.
  - destruct (IH (Z.max a y)) as [Hin Hle]. split.
    + destruct Hin as [Hin|Hin]; [|right; now right].
      rewrite <- Hin. destruct (Z.max_spec a y) as [[_ ->]|[_ ->]]; [right; now left | now left].
    + pose proof (Hle (Z.max a y) (or_introl eq_refl)) as H0.
      intros z [Hz|[Hz|Hz]]; [lia | lia | apply Hle; now right].
Qed.

Lemma fold_left_min_spec (zs : list Z) a :
  In (fold_left Z.min zs a) (a :: zs)
  /\ forall z, In z (a :: zs) -> fold_left Z.min zs a <= z.
Proof.
  revert a. induction zs as [|y zs IH]; intros a; cbn [fold_left].
  - split; [now left|]. intros z [<-|[]]. lia.
  - destruct (IH (Z.min a y)) as [Hin Hle]. split.
    + destruct Hin as [Hin|Hin]; [|right; now right].
      rewrite <- Hin. destruct (Z.min_spec a y) as [[_ ->]|[_ ->]]; [now left | right; now left].
    + pose proof (Hle (Z.min a y) (or_introl eq_refl)) as H0.
      intros z [Hz|[Hz|Hz]]; [lia | lia | apply Hle; now right].
Qed.

Lemma selection_min_max db device ty s e :
  matching_values db device ty s e <> [] ->
  exists lo hi,
    request_device_readings_min db device (Some ty) s e = (BDict [("value", VInt lo)], 200)
    /\ request_device_readings_max db device (Some ty) s e = (BDict [("value", VInt hi)], 200)
    /\ In lo (matching_values db device ty s e)
    /\ In hi (matching_values db device ty s e)
    /\ forall z, In z (matching_values db device ty s e) -> lo <= z <= hi.
Proof.
  intros Hne. rewrite min_response, max_response. unfold sql_min, sql_max.
  rewrite omap_id_map. fold (matching_values db device ty s e).
  destruct (matching_values db device ty s e) as [|a zs]; [congruence|].
  destruct (fold_left_min_spec zs a) as [Hmin1 Hmin2].
  destruct (fold_left_max_spec zs a) as [Hmax1 Hmax2].
  exists (fold_left Z.min zs a), (fold_left Z.max zs a).
  repeat split; auto.
Qed.



(** X8.  After a reading with value [v] was recorded, the min of its
    device and type is at most [v] and the max at least [v]. *)
Theorem record_then_min_max db device sensor_type v now :
  0 <= v <= 100 ->
  exists lo hi,
    request_device_readings_min
      (fst (request_device_readings_post db device (reading_payload sensor_type v) now))
      device (Some sensor_type) None None
    = (BDict [("value", VInt lo)], 200)
    /\ request_device_readings_max
         (fst (request_device_readings_post db device (reading_payload sensor_type v) now))
         device (Some sensor_type) None None
       = (BDict [("value", VInt hi)], 200)
    /\ lo <= v <= hi.
Proof.
  intros Hv. rewrite post_valid by now apply reading_payload_valid. cbn [fst].
  change (get_type (reading_payload sensor_type v)) with (Some sensor_type).
  change (get_value (reading_payload sensor_type v)) with (Some v).
  set (db' := db ++ [mkRow device (Some sensor_type) (Some v) now]).
  assert (Hin : In v (matching_values db' device sensor_type None None)).
  { unfold matching_values, db'. rewrite matching_app.
    assert (Hm : matching [mkRow device (Some sensor_type) (Some v) now] device
                   (Some sensor_type) None None
                 = [mkRow device (Some sensor_type) (Some v) now]).
    { unfold matching. cbn. now rewrite !String.eqb_refl. }
    rewrite Hm. rewrite <- list_elem_of_In. rewrite omap_app. cbn.
    apply elem_of_app. right. apply list_elem_of_In. now left. }
  destruct (selection_min_max db' device sensor_type None None) as [lo [hi [H1 [H2 [_ [_ H3]]]]]].
  { intros Hnil. rewrite Hnil in Hin. destruct Hin. }
  exists lo, hi. split; [exact H1|]. split; [exact H2|]. now apply H3.
Qed.

Lemma record_then_min_max_witness :
  exists lo hi,
    request_device_readings_min
      (fst (request_device_readings_post (fixture 100 150 200) "test_device"
              (reading_payload "temperature" 7) 300))
      "test_device" (Some "temperature") None None
    = (BDict [("value", VInt lo)], 200)
    /\ request_device_readings_max
         (fst (request_device_readings_post (fixture 100 150 200) "test_device"
                 (reading_payload "temperature" 7) 300))
         "test_device" (Some "temperature") None None
       = (BDict [("value", VInt hi)], 200)
    /\ lo <= 7 <= hi.
Proof.
  apply (record_then_min_max (fixture 100 150 200) "test_device" "temperature" 7 300).
  lia.
Defined.

(** ** A NULL value under the percentile aggregate *)

Lemma run_percentile_null (vs : list (option Z)) per :
  In None vs -> run_percentile vs per = None.
Proof.
  intros Hin. unfold run_percentile. destruct vs as [|v vs']; [destruct Hin|].
  rewrite fold_step. unfold Percentile.finalize, Numpy.nanpercentile.
  cbn [Percentile.percentile Percentile.arr Percentile.init app].
  assert (H : forallb (fun v0 : option Z => match v0 with Some _ => true | None => false end)
                (v :: vs') = false).
  { apply not_true_is_false. intros H. rewrite forallb_forall in H.
    specialize (H None Hin). discriminate. }
  rewrite H. reflexivity.
Qed.

Lemma mapM_fails {A B : Type} (f : A -> option B) (l : list A) x :
  In x l -> f x = None -> mapM f l = None.
Proof.
  induction l as [|y l IH]; intros Hin Hx; [destruct Hin|]. cbn.
  destruct Hin as [->|Hin].
  - now rewrite Hx.
  - rewrite (IH Hin Hx). now destruct (f y).
Qed.

Lemma type_payload_valid t : Cerberus.validate (type_payload t) = true.
Proof.
  apply validate_spec. intros k w. unfold type_payload.
  rewrite lookup_insert. case_decide as Hk.
  - intros [= <-]. subst k. reflexivity.
  - rewrite lookup_empty. discriminate.
Qed.

Lemma summary_fails db r :
  In r db -> value r = None ->
  request_device_summary db = (BText "Error getting max value", 500).
Proof.
  intros Hr Hv. unfold request_device_summary, execute. rewrite String.eqb_refl.
  assert (Hg : In (key_of r, length (group_rows (key_of r) db)) (summary_groups db)).
  { apply summary_groups_In. split; [|reflexivity]. cbn [fst]. now apply in_map. }
  rewrite (mapM_fails _ _ _ Hg); [reflexivity|].
  unfold summary_row. cbn [fst].
  rewrite (run_percentile_null _ 25); [reflexivity|].
  apply in_map_iff. exists r. split; [exact Hv|]. now apply group_rows_In.
Qed.

(** X5.  A record request without a value is accepted and
    stored with a NULL value; from then on the median and the quartiles of
    its device and type, and the summary of the whole store, answer 500,
    while min, max and mean keep answering 200. *)
Theorem record_without_value_breaks_percentiles db device t now s e :
  request_device_readings_post db device (type_payload t) now
  = (db ++ [mkRow device (Some t) None now], (BText "success", 201))
  /\ request_device_readings_median (db ++ [mkRow device (Some t) None now])
       device (Some t) None None
     = (BText "Error getting max value", 500)
  /\ request_device_readings_quartiles (db ++ [mkRow device (Some t) None now])
       device (Some t) None None
     = (BText "Error getting max value", 500)
  /\ request_device_summary (db ++ [mkRow device (Some t) None now])
     = (BText "Error getting max value", 500)
  /\ snd (request_device_readings_min (db ++ [mkRow device (Some t) None now])
            device (Some t) s e) = 200
  /\ snd (request_device_readings_max (db ++ [mkRow device (Some t) None now])
            device (Some t) s e) = 200
  /\ snd (request_device_readings_mean (db ++ [mkRow device (Some t) None now])
            device (Some t) s e) = 200.
Proof.
  assert (Hin : In None (map value (matching (db ++ [mkRow device (Some t) None now])
                                      device (Some t) None None))).
  { apply in_map_iff. exists (mkRow device (Some t) None now). split; [reflexivity|].
    rewrite matching_app. apply in_or_app. right. unfold matching. cbn.
    rewrite !String.eqb_refl. now left. }
  split; [|split; [|split; [|split; [|split; [|split]]]]].
  - rewrite post_valid by apply type_payload_valid. reflexivity.
  - rewrite median_response, (mapM_fails _ _ 50);
      [reflexivity | now left | now apply run_percentile_null].
  - rewrite quartiles_response, (mapM_fails _ _ 25);
      [reflexivity | now left | now apply run_percentile_null].
  - apply (summary_fails _ (mkRow device (Some t) None now)); [|reflexivity].
    apply in_or_app. right. now left.
  - now rewrite min_response.
  - now rewrite max_response.
  - now rewrite mean_response.
Qed.

(** ** Mode with ties *)



(** ** Empty query arguments of the aggregate handlers *)

Lemma matching_empty_start db device t e :
  matching db device t (Some "") e = [].
Proof.
  unfold matching. induction db as [|r db IH]; [reflexivity|]. cbn [List.filter].
  rewrite IH. cbn [start_ok]. unfold ge_param. cbn [numeric_affinity].
  change (numeric_affinity "") with (@None Z). cbn [andb].
  now rewrite !andb_false_r.
Qed.

Lemma matching_empty_end db device t s :
  matching db device t s (Some "") = matching db device t s None.
Proof. reflexivity. Qed.

(** X12.  The aggregate handlers bind an empty [start] or [end]
    argument as it is: an empty [start] is a text no stored time reaches, so
    nothing is selected; an empty [end] is a text above every stored time, so
    it bounds nothing.  The listing handler drops both. *)
Theorem empty_bounds_of_aggregates db device ty type_arg s e :
  request_device_readings_max db device (Some ty) (Some "") e = (BDict [("value", VNull)], 200)
  /\ request_device_readings_min db device (Some ty) (Some "") e = (BDict [("value", VNull)], 200)
  /\ request_device_readings_mean db device (Some ty) (Some "") e = (BDict [("value", VNull)], 200)
  /\ request_device_readings_median db device (Some ty) (Some "") e
     = (BDict [("value", VNull)], 200)
  /\ request_device_readings_quartiles db device (Some ty) (Some "") e
     = (BDict [("quartile_1", VNull); ("quartile_3", VNull)], 200)
  /\ request_device_readings_mode db device (Some ty) (Some "") e
     = (BDict [("value", VText "null")], 200)
  /\ request_device_readings_max db device (Some ty) s (Some "")
     = request_device_readings_max db device (Some ty) s None
  /\ request_device_readings_min db device (Some ty) s (Some "")
     = request_device_readings_min db device (Some ty) s None
  /\ request_device_readings_mean db device (Some ty) s (Some "")
     = request_device_readings_mean db device (Some ty) s None
  /\ request_device_readings_median db device (Some ty) s (Some "")
     = request_device_readings_median db device (Some ty) s None
  /\ request_device_readings_quartiles db device (Some ty) s (Some "")
     = request_device_readings_quartiles db device (Some ty) s None
  /\ request_device_readings_mode db device (Some ty) s (Some "")
     = request_device_readings_mode db device (Some ty) s None
  /\ request_device_readings_get db device type_arg (Some "") (Some "")
     = request_device_readings_get db device type_arg None None.
Proof.
  rewrite !max_response, !min_response, !mean_response, !median_response,
    !quartiles_response, !mode_response, !matching_empty_start, !matching_empty_end.
  repeat split.
Qed.

(** ** Order statistics behind the percentile *)

Lemma Zleb_total a b : Z.leb a b = true \/ Z.leb b a = true.
Proof. rewrite !Z.leb_le. lia. Qed.

Lemma Zleb_trans a b c : Z.leb a b = true -> Z.leb b c = true -> Z.leb a c = true.
Proof. rewrite !Z.leb_le. lia. Qed.

Lemma sorted_values (l : list Z) :
  StronglySorted (fun a b => Z.leb a b = true) (sort_by Z.leb l).
Proof. apply sort_by_sorted; [apply Zleb_total | apply Zleb_trans]. Qed.


Lemma sorted_perm_eq (l l' : list Z) :
  StronglySorted (fun a b => Z.leb a b = true) l ->
  StronglySorted (fun a b => Z.leb a b = true) l' ->
  Permutation l l' -> l = l'.
Proof.
  intros Hl. revert l'. induction Hl as [|x l Hs IH Hx]; intros l' Hl' Hp.
  - now apply Permutation_nil in Hp.
  - destruct Hl' as [|y l' Hs' Hy].
    + apply Permutation_sym, Permutation_nil in Hp. discriminate.
    + rewrite List.Forall_forall in Hx, Hy.
      assert (Hxy : x = y).
      { assert (H1 : In y (x :: l)) by (apply (Permutation_in _ (Permutation_sym Hp)); now left).
        assert (H2 : In x (y :: l')) by (apply (Permutation_in _ Hp); now left).
        destruct H1 as [H1|H1]; [exact H1|]. destruct H2 as [H2|H2]; [now symmetry|].
        apply Hx, Z.leb_le in H1. apply Hy, Z.leb_le in H2. lia. }
      subst y. f_equal. apply IH; [exact Hs'|]. now apply Permutation_cons_inv in Hp.
Qed.

Lemma sort_values_perm (l l' : list Z) :
  Permutation l l' -> sort_by Z.leb l = sort_by Z.leb l'.
Proof.
  intros Hp. apply sorted_perm_eq; try apply sorted_values.
  rewrite (sort_by_perm Z.leb l), (sort_by_perm Z.leb l'). exact Hp.
Qed.





(** ** Median and quartiles of a selection *)






(** ** The percentile aggregate and the storage order *)

Lemma filter_perm {A : Type} (f : A -> bool) (l l' : list A) :
  Permutation l l' -> Permutation (List.filter f l) (List.filter f l').
Proof.
  induction 1 as [|x l l' _ IH|x y l|l l' l'' _ IH1 _ IH2]; simpl.
  - constructor.
  - destruct (f x); [now constructor | exact IH].
  - destruct (f x), (f y); try reflexivity. apply perm_swap.
  - now transitivity (List.filter f l').
Qed.

Lemma omap_id_perm (vs vs' : list (option Z)) :
  Permutation vs vs' -> Permutation (omap id vs) (omap id vs').
Proof.
  induction 1 as [|x l l' _ IH|x y l|l l' l'' _ IH1 _ IH2]; cbn.
  - constructor.
  - destruct x; cbn; [now constructor | exact IH].
  - destruct x, y; cbn; try reflexivity. apply perm_swap.
  - now transitivity (omap id l').
Qed.

Lemma nanpercentile_perm (vs vs' : list (option Z)) p :
  Permutation vs vs' -> Numpy.nanpercentile vs p = Numpy.nanpercentile vs' p.
Proof.
  intros Hp. unfold Numpy.nanpercentile.
  assert (Hall : forallb (fun v : option Z => match v with Some _ => true | None => false end) vs
                 = forallb (fun v : option Z => match v with Some _ => true | None => false end) vs').
  { apply eq_true_iff_eq. rewrite !forallb_forall. split; intros H x Hx; apply H.
    - now apply (Permutation_in _ (Permutation_sym Hp)).
    - now apply (Permutation_in _ Hp). }
  assert (Hmid : Numpy.midpoint (omap id vs) p = Numpy.midpoint (omap id vs') p).
  { unfold Numpy.midpoint. now rewrite (sort_values_perm _ _ (omap_id_perm _ _ Hp)). }
  destruct vs as [|v vs0], vs' as [|v' vs0'].
  - reflexivity.
  - apply Permutation_nil in Hp. discriminate.
  - apply Permutation_sym, Permutation_nil in Hp. discriminate.
  - now rewrite Hall, Hmid.
Qed.

Lemma run_percentile_perm (vs vs' : list (option Z)) p :
  Permutation vs vs' -> run_percentile vs p = run_percentile vs' p.
Proof.
  intros Hp. unfold run_percentile. rewrite !fold_step. unfold Percentile.finalize.
  cbn [Percentile.percentile Percentile.arr Percentile.init app].
  destruct vs as [|v vs0], vs' as [|v' vs0'].
  - reflexivity.
  - apply Permutation_nil in Hp. discriminate.
  - apply Permutation_sym, Permutation_nil in Hp. discriminate.
  - now rewrite (nanpercentile_perm _ _ p Hp).
Qed.

(** X16.  The median and the quartiles do not depend on
    the order in which the readings are stored. *)
Theorem percentiles_ignore_storage_order db db' device type_arg s e :
  Permutation db db' ->
  request_device_readings_median db device type_arg s e
  = request_device_readings_median db' device type_arg s e
  /\ request_device_readings_quartiles db device type_arg s e
     = request_device_readings_quartiles db' device type_arg s e.
Proof.
  intros Hp. destruct type_arg as [ty|]; [|split; reflexivity].
  rewrite !median_response, !quartiles_response.
  assert (Hv : Permutation (map value (matching db device (Some ty) s e))
                           (map value (matching db' device (Some ty) s e))).
  { apply Permutation_map. unfold matching. now apply filter_perm. }
  cbn [mapM].
  rewrite (run_percentile_perm _ _ 50 Hv), (run_percentile_perm _ _ 25 Hv),
    (run_percentile_perm _ _ 75 Hv).
  split; reflexivity.
Qed.

Lemma percentiles_ignore_storage_order_witness :
  request_device_readings_median (fixture 100 150 200) "test_device" (Some "temperature") None None
  = request_device_readings_median (rev (fixture 100 150 200)) "test_device"
      (Some "temperature") None None
  /\ request_device_readings_quartiles (fixture 100 150 200) "test_device"
       (Some "temperature") None None
     = request_device_readings_quartiles (rev (fixture 100 150 200)) "test_device"
         (Some "temperature") None None.
Proof.
  apply (percentiles_ignore_storage_order (fixture 100 150 200) (rev (fixture 100 150 200))
           "test_device" (Some "temperature") None None).
  apply Permutation_rev.
Defined.

(** ** Mean *)





(** ** Summary: the counts *)

Lemma group_sizes_add_up (ks : list key) (db : DB) :
  List.NoDup ks -> (forall r, In r db -> In (key_of r) ks) ->
  fold_right Nat.add O (map (fun k => length (group_rows k db)) ks) = length db.
Proof.
  intros Hnd. induction db as [|r db IH]; intros Hall.
  - clear. induction ks as [|k ks IHk]; [reflexivity | exact IHk].
  - specialize (IH (fun r' Hr' => Hall r' (or_intror Hr'))).
    assert (Hr : In (key_of r) ks) by (apply Hall; now left).
    cbn [length]. rewrite <- IH. clear IH Hall.
    induction ks as [|k ks IHk]; [destruct Hr|].
    inversion Hnd as [|? ? Hnot Hnd']; subst.
    cbn [map fold_right]. unfold group_rows at 1. cbn [List.filter].
    fold (group_rows k db).
    destruct Hr as [Hk|Hr].
    + rewrite bool_decide_eq_true_2 by (now symmetry). cbn [length].
      assert (Hrest : map (fun k0 => length (group_rows k0 (r :: db))) ks
                      = map (fun k0 => length (group_rows k0 db)) ks).
      { apply map_ext_in. intros k0 Hk0. unfold group_rows. cbn [List.filter].
        rewrite bool_decide_eq_false_2; [reflexivity|]. intros H. apply Hnot. congruence. }
      rewrite Hrest. lia.
    + rewrite bool_decide_eq_false_2 by (intros H; apply Hnot; congruence).
      rewrite (IHk Hnd' Hr). lia.
Qed.

Lemma sum_perm (l l' : list nat) :
  Permutation l l' -> fold_right Nat.add O l = fold_right Nat.add O l'.
Proof. induction 1; simpl; lia. Qed.

(** X20.  The counts of the summary add up to the number of stored
    readings: each reading is counted in exactly one group. *)
Theorem summary_counts_add_up db :
  (forall r, In r db -> value r <> None) ->
  request_device_summary db = (BList (map (summary_object db) (summary_groups db)), 200)
  /\ fold_right Nat.add O (map snd (summary_groups db)) = length db.
Proof.
  intros Hint. split; [now apply summary_response|].
  unfold summary_groups.
  rewrite (sum_perm _ _ (Permutation_map snd (sort_by_perm count_desc _))).
  rewrite map_map. cbn [snd].
  apply group_sizes_add_up.
  - apply (Permutation_NoDup (Permutation_sym (sort_by_perm key_leb _))).
    apply NoDup_ListNoDup, NoDup_remove_dups.
  - intros r Hr. apply (proj2 (sort_by_In _ _ _)), (proj2 (In_remove_dups _ _)).
    now apply in_map.
Qed.

Lemma summary_counts_add_up_witness :
  request_device_summary (fixture 100 150 200)
  = (BList (map (summary_object (fixture 100 150 200)) (summary_groups (fixture 100 150 200))),
     200)
  /\ fold_right Nat.add O (map snd (summary_groups (fixture 100 150 200)))
     = length (fixture 100 150 200).
Proof.
  apply (summary_counts_add_up (fixture 100 150 200)).
  intros r Hr. vm_compute in Hr.
  destruct Hr as [<-|[<-|[<-|[<-|[<-|[]]]]]]; discriminate.
Defined.

(** ** Builders: placeholders and parameters *)

Lemma append_cons x (a b : string) :
  String.append (String x a) b = String x (String.append a b).
Proof. reflexivity. Qed.

Lemma append_assoc (a b c : string) :
  String.append (String.append a b) c = String.append a (String.append b c).
Proof.
  induction a as [|x a IH]; [reflexivity|]. rewrite !append_cons. f_equal. exact IH.
Qed.

Lemma append_empty (a : string) : String.append a "" = a.
Proof.
  induction a as [|x a IH]; [reflexivity|]. rewrite append_cons. f_equal. exact IH.
Qed.

(** X21.  Both builders only append to the template, one
    placeholder for each parameter they add; the metric builder counts the
    sensor type among its parameters and leaves that placeholder to the
    template. *)
Theorem builders_bind_what_they_append
    (template : string) (t s e : option string) (ty : string) :
  (exists suffix,
     fst (query_builder t template s e) = String.append template suffix
     /\ count_placeholders suffix = length (snd (query_builder t template s e)))
  /\ (exists suffix,
        fst (metric_query_builder ty template s e) = String.append template suffix
        /\ S (count_placeholders suffix) = length (snd (metric_query_builder ty template s e))).
Proof.
  split.
  - exists (String.append (match t with Some _ => "and type = ?" | None => "" end)
             (String.append (match s with Some _ => "and date_created >= ?" | None => "" end)
                            (match e with Some _ => "and date_created <= ?" | None => "" end))).
    destruct t, s, e; cbv beta iota zeta delta [query_builder fst snd];
      (split; [|reflexivity]); cbn [String.append];
      repeat rewrite append_assoc; try reflexivity; symmetry; apply append_empty.
  - exists (String.append (match s with Some _ => "and date_created >= ?" | None => "" end)
                          (match e with Some _ => "and date_created <= ?" | None => "" end)).
    destruct s, e; cbv beta iota zeta delta [metric_query_builder fst snd];
      (split; [|reflexivity]); cbn [String.append];
      repeat rewrite append_assoc; try reflexivity; symmetry; apply append_empty.
Qed.

(** ** The connection of a request *)


(** ** The extreme percentiles *)



(** ** Listing by sensor type *)

(** X10.  A listing that asks for a sensor type returns only
    objects of that type, whatever the bounds. *)
Theorem listing_only_requested_type db device t s e obj :
  t <> "" ->
  In obj (listed (request_device_readings_get db device (Some t) s e)) ->
  In ("type", VText t) obj.
Proof.
  intros Ht Hin. rewrite listed_listing in Hin. apply in_map_iff in Hin.
  destruct Hin as [r [<- Hr]]. apply matching_In in Hr. destruct Hr as [_ [_ [Hty _]]].
  unfold or_none in Hty. destruct (String.eqb_spec t "") as [E|_]; [congruence|].
  simpl in Hty. destruct (type r) as [t'|] eqn:Et; [|discriminate].
  apply String.eqb_eq in Hty. subst t'.
  unfold reading_object, row_tuple, readings_keys. rewrite Et. cbn. right. now left.
Qed.

Lemma listing_only_requested_type_witness :
  In ("type", VText "humidity")
     (combine readings_keys
        [VText "test_device"; VText "humidity"; VInt 50; VInt 150]).
Proof.
  apply (listing_only_requested_type (fixture 100 150 200) "test_device" "humidity" None None).
  - discriminate.
  - vm_compute. left. reflexivity.
Defined.

(** ** Status codes of the aggregate handlers *)



